(** * Phase-2 trading-journal dashboard: the two Streamlit entry points

    A shallow embedding of [app.py] and [streamlit_app.py].  Both scripts are
    glue around third-party services, so the embedding keeps exactly what the
    scripts themselves decide: which client is built, which service call is
    made and in which [try] block it sits, what is written to the UI, to the
    local variables and to the session state.

    The services are outside the repository.  Their behaviour is a parameter
    of the development: every service call is an arbitrary function of a
    hidden [World] that either answers or raises. *)

From Stdlib Require Import ZArith.
From stdpp Require Import base option list gmap strings fin_maps fin_sets.

Open Scope string_scope.
Open Scope list_scope.
Open Scope Z_scope.

(** ** Python values shared by both scripts *)

(** Exceptions, by the place that raises them.  All four are instances of
    Python's [Exception], so [except Exception] handles each of them;
    [except FileNotFoundError] handles the third only.  What is raised
    outside [Exception] (a keyboard interrupt, an exit) is not an outcome of
    a call and is left out. *)
Inductive exn : Type :=
  | ServiceError (msg : string)       (* raised inside a call to a service client *)
  | KeyError (key : string)           (* a subscript [d[key]] of the script on a missing key *)
  | FileNotFoundError (msg : string)  (* [st.secrets] without a secrets file *)
  | PandasError (msg : string).       (* reading or converting the local sample CSV *)

(** [str(e)]: the message placed in f-strings and returned as error string.
    [str(KeyError(k))] is the [repr] of the key. *)
Definition str (e : exn) : string :=
  match e with
  | ServiceError m => m
  | KeyError k => "'" +:+ k +:+ "'"
  | FileNotFoundError m => m
  | PandasError m => m
  end.

(** A row as the services return it: a dictionary from column name to cell. *)
Abbreviation row := (gmap string string).

(** The four Streamlit notification calls. *)
Inductive level : Type := StInfo | StSuccess | StWarning | StError.

Record notification : Type := Notify { note_level : level; note_text : string }.

Definition st_info (s : string) : notification := Notify StInfo s.
Definition st_success (s : string) : notification := Notify StSuccess s.
Definition st_warning (s : string) : notification := Notify StWarning s.
Definition st_error (s : string) : notification := Notify StError s.

(** Truthiness of an optional string ([None] and [""] are falsy). *)
Definition truthy (v : option string) : bool :=
  match v with
  | Some s => negb (String.eqb s "")
  | None => false
  end.

(** [sep.join(l)] *)
Fixpoint join (sep : string) (l : list string) : string :=
  match l with
  | [] => ""
  | [x] => x
  | x :: rest => x +:+ sep +:+ join sep rest
  end.

(** ** A state-and-exception monad

    A computation runs on a state [S] and either returns or raises; the state
    reached is kept in both cases, as assignments made before a [raise] are. *)
Inductive outcome (A : Type) : Type :=
  | Returned (a : A)
  | Raised (e : exn).
Arguments Returned {A} a.
Arguments Raised {A} e.

(** What a service call answers: a value, or the message of the exception. *)
Inductive reply (A : Type) : Type :=
  | Answers (a : A)
  | Throws (msg : string).
Arguments Answers {A} a.
Arguments Throws {A} msg.

Definition M (S A : Type) : Type := S → outcome A * S.

Definition ret {S A} (a : A) : M S A := λ s, (Returned a, s).

Definition bind {S A B} (m : M S A) (k : A → M S B) : M S B :=
  λ s, match m s with
       | (Returned a, s') => k a s'
       | (Raised e, s') => (Raised e, s')
       end.

Definition raise {S A} (e : exn) : M S A := λ s, (Raised e, s).

Definition gets {S A} (f : S → A) : M S A := λ s, (Returned (f s), s).

Definition modify {S} (f : S → S) : M S unit := λ s, (Returned tt, f s).

(** [try: body  except Exception as e: handler e] *)
Definition try_except {S A} (body : M S A) (handler : exn → M S A) : M S A :=
  λ s, match body s with
       | (Returned a, s') => (Returned a, s')
       | (Raised e, s') => handler e s'
       end.

(** stdpp's monad notations: [x ← m; k] and [m;; k]. *)
#[global] Instance M_ret {S} : MRet (M S) := λ A, ret.
#[global] Instance M_bind {S} : MBind (M S) := λ A B k m, bind m k.

(** The computation returns from every state: it raises nothing. *)
Definition always_returns {S A} (m : M S A) : Prop :=
  ∀ s, ∃ a s', m s = (Returned a, s').

(** [[f(x) for x in l]], stopping at the first element that raises. *)
Fixpoint comprehension {S A B} (f : A → M S B) (l : list A) : M S (list B) :=
  match l with
  | [] => ret []
  | x :: rest => y ← f x; ys ← comprehension f rest; ret (y :: ys)
  end.

(** [for x in l: body x] *)
Fixpoint for_each {S A} (l : list A) (body : A → M S unit) : M S unit :=
  match l with
  | [] => ret tt
  | x :: rest => body x;; for_each rest body
  end.

(** [d[key]] on a dictionary row *)
Definition subscript {S} (d : row) (key : string) : M S string :=
  match d !! key with
  | Some v => ret v
  | None => raise (KeyError key)
  end.

(** A call to the constructor of a client class.  The constructor checks its
    arguments: it raises, with the message [m] when [rejected] is [Some m],
    or returns the object, which is kept by its arguments. *)
Definition construct {S A} (rejected : option string) (object : A) : M S A :=
  match rejected with
  | Some m => raise (ServiceError m)
  | None => ret object
  end.

(** The order in which Python iterates a [set] is not specified.  It is a
    parameter: some enumeration of the set, each element once. *)
Record set_order : Type := SetOrder {
  iterate : gset string → list string;
  iterate_perm : ∀ X, iterate X ≡ₚ elements X
}.

Definition elements_order : set_order := SetOrder elements (λ X, reflexivity _).

(** [list(set(l))] *)
Definition list_set (ord : set_order) (l : list string) : list string :=
  iterate ord (list_to_set l).

(** ** [app.py] *)
Module App.

(** [Config] lives in [config/config.py], which is not among the sources
    shown.  It is taken as a parameter: its class attributes and what its
    methods return. *)
Record Config : Type := {
  SUPABASE_URL : option string;
  SUPABASE_KEY : option string;
  TOPSTEP_API_KEY : option string;
  DATABENTO_API_KEY : option string;
  OPENAI_API_KEY : option string;
  OPENAI_MODEL : option string;
  is_supabase_configured : bool;
  is_topstep_configured : bool;
  is_databento_configured : bool;
  is_openai_configured : bool;
  validate : list string
}.

(** The client objects, by the arguments their constructors receive. *)
Record SupabaseClient : Type := { sb_url : option string; sb_key : option string }.
Record TopStepClient : Type := { ts_api_key : option string }.
Record DatabentoClient : Type := { db_api_key : option string }.
Record NLPProcessor : Type := { nlp_api_key : option string; nlp_model : option string }.

Record clients : Type := {
  supabase_client : option SupabaseClient;
  topstep_client : option TopStepClient;
  databento_client : option DatabentoClient;
  nlp_processor : option NLPProcessor
}.

Definition init_clients (cfg : Config) : clients :=
  {| supabase_client :=
       if is_supabase_configured cfg
       then Some {| sb_url := SUPABASE_URL cfg; sb_key := SUPABASE_KEY cfg |}
       else None;
     topstep_client :=
       if is_topstep_configured cfg
       then Some {| ts_api_key := TOPSTEP_API_KEY cfg |}
       else None;
     databento_client :=
       if is_databento_configured cfg
       then Some {| db_api_key := DATABENTO_API_KEY cfg |}
       else None;
     nlp_processor :=
       if is_openai_configured cfg
       then Some {| nlp_api_key := OPENAI_API_KEY cfg; nlp_model := OPENAI_MODEL cfg |}
       else None |}.



(** Calls that leave the process, as they are made. *)
Inductive call : Type :=
  | FetchTrades
  | FetchJournals
  | GetCandlestickData (symbol : string) (start_date end_date : Z).

Definition requested_symbol (c : call) : option string :=
  match c with
  | GetCandlestickData s _ _ => Some s
  | _ => None
  end.

(** [datetime] values are microseconds on the clock; [timedelta(days=30)]. *)
Definition thirty_days : Z := 30 * 86400 * 1000000.

(** The symbols a list of calls asks candles for, in order. *)
Definition requested (cs : list call) : list string := omap requested_symbol cs.

(** The symbols the rows of a table carry. *)
Definition symbols_of (ts : list row) : list string := omap (λ t, t !! "symbol") ts.

Definition has_symbol (t : row) : Prop := is_Some (t !! "symbol").

(** One candle request per symbol of [l], each over the thirty days that
    end at the clock reading taken for it. *)
Definition candle_calls (l : list string) (readings : list Z) : list call :=
  zip_with (λ symbol end_date,
              GetCandlestickData symbol (end_date - thirty_days) end_date)
           l readings.

Section Program.
Context {World DataFrame : Type}.

(** Everything [load_data] reaches outside the script. *)
Record services : Type := {
  fetch_trades : SupabaseClient → World → reply (list row) * World;
  fetch_journals : SupabaseClient → World → reply (list row) * World;
  get_candlestick_data :
    DatabentoClient → string → Z → Z → World → reply DataFrame * World;
  datetime_now : World → Z * World;
  generate_trades : nat → World → list row * World;
  generate_journals : list row → World → list row * World;
  path_exists : string → World → bool * World;
  read_csv : string → World → reply DataFrame * World;
  to_datetime_timestamp : DataFrame → reply DataFrame
}.

(** The local variables of [load_data]. *)
Record frame : Type := {
  trades : list row;
  journals : list row;
  market_data : gmap string DataFrame
}.

Record state : Type := {
  world : World;
  ui : list notification;
  calls : list call;
  vars : frame
}.

Definition notify (n : notification) : M state unit :=
  modify (λ s, {| world := world s; ui := ui s ++ [n]; calls := calls s; vars := vars s |}).

(** The values the variables start with. *)
Definition initial_vars : frame := {| trades := []; journals := []; market_data := ∅ |}.

(** The state [s] when [load_data] has set its variables to their start. *)
Definition restarted (s : state) : state :=
  {| world := world s; ui := ui s; calls := calls s; vars := initial_vars |}.

(** The state [s] after more notifications, with the variables [v]. *)
Definition noted (s : state) (n : list notification) (v : frame) : state :=
  {| world := world s; ui := ui s ++ n; calls := calls s; vars := v |}.

Definition set_vars (f : frame → frame) : M state unit :=
  modify (λ s, {| world := world s; ui := ui s; calls := calls s; vars := f (vars s) |}).

Definition set_trades (v : list row) : M state unit :=
  set_vars (λ f, {| trades := v; journals := journals f; market_data := market_data f |}).

Definition set_journals (v : list row) : M state unit :=
  set_vars (λ f, {| trades := trades f; journals := v; market_data := market_data f |}).

Definition set_market_data (k : string) (v : DataFrame) : M state unit :=
  set_vars (λ f, {| trades := trades f; journals := journals f;
                    market_data := <[k:=v]> (market_data f) |}).

(** Something local that cannot raise: the clock, the generator, the file test. *)
Definition in_process {A} (f : World → A * World) : M state A :=
  λ s, let '(a, w) := f (world s) in
       (Returned a, {| world := w; ui := ui s; calls := calls s; vars := vars s |}).

(** A call to a service client: recorded, then answered or raised. *)
Definition service (c : call) {A} (f : World → reply A * World) : M state A :=
  λ s, let '(r, w) := f (world s) in
       let s' := {| world := w; ui := ui s; calls := calls s ++ [c]; vars := vars s |} in
       match r with
       | Answers a => (Returned a, s')
       | Throws m => (Raised (ServiceError m), s')
       end.

(** Pandas on the local file: may raise, is not a service call. *)
Definition pandas {A} (f : World → reply A * World) : M state A :=
  λ s, let '(r, w) := f (world s) in
       let s' := {| world := w; ui := ui s; calls := calls s; vars := vars s |} in
       match r with
       | Answers a => (Returned a, s')
       | Throws m => (Raised (PandasError m), s')
       end.

Definition sample_market_data_path : string := "./data/sample_market_data_MES.csv".

Variable sv : services.
Variable ord : set_order.
Variable cl : clients.

(** The [if use_sample_data:] branch. *)
Definition load_sample : M state unit :=
  notify (st_info "Loading sample data...");;
  ts ← in_process (generate_trades sv 100);
  set_trades ts;;
  js ← in_process (generate_journals sv ts);
  set_journals js;;
  found ← in_process (path_exists sv sample_market_data_path);
  if (found : bool) then
    df ← pandas (read_csv sv sample_market_data_path);
    set_market_data "MES" df;;
    df' ← pandas (λ w, (to_datetime_timestamp sv df, w));
    set_market_data "MES" df'
  else
    notify (st_warning ("Sample market data not found at " +:+ sample_market_data_path
                      +:+ ". Please run sample_data_generator.py.")).

(** The first [if] of the [else] branch: trades and journals from Supabase. *)
Definition load_supabase : M state unit :=
  match supabase_client cl with
  | Some c =>
      try_except
        (ts ← service FetchTrades (fetch_trades sv c);
         set_trades ts;;
         js ← service FetchJournals (fetch_journals sv c);
         set_journals js;;
         notify (st_success "Data fetched from Supabase."))
        (λ e, notify (st_error ("Error fetching data from Supabase: " +:+ str e)))
  | None => notify (st_warning "Supabase client not configured. Cannot fetch live data.")
  end.

(** The body of [for symbol in unique_symbols:]. *)
Definition fetch_symbol (d : DatabentoClient) (symbol : string) : M state unit :=
  try_except
    (end_date ← in_process (datetime_now sv);
     let start_date := end_date - thirty_days in
     df ← service (GetCandlestickData symbol start_date end_date)
                   (get_candlestick_data sv d symbol start_date end_date);
     set_market_data symbol df)
    (λ e, notify (st_error ("Error fetching market data for " +:+ symbol
                          +:+ " from Databento: " +:+ str e))).

(** The second [if] of the [else] branch: candles for the symbols traded. *)
Definition load_market_data : M state unit :=
  ts ← gets (λ s, trades (vars s));
  match databento_client cl, ts with
  | Some d, _ :: _ =>
      symbols ← comprehension (λ trade, subscript trade "symbol") ts;
      let unique_symbols := list_set ord symbols in
      for_each unique_symbols (fetch_symbol d)
  | _, _ => ret tt
  end.

(** [load_data].  The [st.cache_data] decorator only replays a result
    computed by this body; the body is what is modelled. *)
Definition load_data (use_sample_data : bool)
  : M state (list row * list row * gmap string DataFrame) :=
  set_vars (λ _, initial_vars);;
  (if use_sample_data then load_sample
   else (load_supabase;; load_market_data));;
  f ← gets vars;
  ret (trades f, journals f, market_data f).

(** The triple [load_data] returns is read off its variables. *)
Definition returned_vars (r : outcome unit) (s : state)
  : outcome (list row * list row * gmap string DataFrame) :=
  match r with
  | Returned _ => Returned (trades (vars s), journals (vars s), market_data (vars s))
  | Raised e => Raised e
  end.

(** A summary of one run of the market-data step from [s]: it ended as [r] in
    [s'], having asked candles for the symbols [l] at the clock [readings]. *)
Definition market_step (s : state) (r : outcome unit) (s' : state)
    (l : list string) (readings : list Z) : Prop :=
  (r = Returned tt
   ∨ (r = Raised (KeyError "symbol") ∧ s' = s ∧ ¬ Forall has_symbol (trades (vars s))))
  ∧ length readings = length l
  ∧ calls s' = calls s ++ candle_calls l readings
  ∧ NoDup l
  ∧ (∀ x, x ∈ l → x ∈ symbols_of (trades (vars s)))
  ∧ (l ≠ [] → is_Some (databento_client cl) ∧ trades (vars s) ≠ [])
  ∧ (is_Some (databento_client cl) → Forall has_symbol (trades (vars s)) →
     r = Returned tt
     ∧ l ≡ₚ elements (list_to_set (symbols_of (trades (vars s))) : gset string))
  ∧ trades (vars s') = trades (vars s)
  ∧ journals (vars s') = journals (vars s)
  ∧ dom (market_data (vars s')) ⊆ dom (market_data (vars s)) ∪ list_to_set l
  ∧ (∃ errors, ui s' = ui s ++ errors ∧ Forall (λ n, note_level n = StError) errors).

End Program.
Arguments services : clear implicits.
Arguments state : clear implicits.
Arguments frame : clear implicits.

(** *** [main] *)

(** The collaborators [main] builds and the page renderer it ends in; their
    code is not shown, they are kept by the arguments they receive. *)
Record TradeAnalytics : Type := { ta_trades : list row }.

Section Main.
Context {World DataFrame : Type}.

Record EnhancedPredictiveEngine : Type := {
  pe_trades : list row;
  pe_journals : list row;
  pe_market_data : option DataFrame
}.

Inductive rendering : Type :=
  | DashboardPage (a : TradeAnalytics) (trades journals : list row)
  | AnalysisPage (a : TradeAnalytics) (trades journals : list row)
  | ChartsPage (trades journals : list row) (market_data : gmap string DataFrame)
  | InsightsPage (e : EnhancedPredictiveEngine) (nlp : option NLPProcessor)
                 (trades journals : list row) (market_data : gmap string DataFrame)
  | NoPage.

(** [st.checkbox(label, value=v)]: [v] until the user has set the box. *)
Definition st_checkbox (user_setting : option bool) (value : bool) : bool :=
  default value user_setting.

(** Some service is configured: the value of [is_any_api_configured]. *)
Definition any_api_configured (cfg : Config) : bool :=
  is_supabase_configured cfg || is_topstep_configured cfg
  || is_databento_configured cfg || is_openai_configured cfg.

(** The value of [use_sample_data] for a setting of the box. *)
Definition sample_data_chosen (cfg : Config) (box : option bool) : bool :=
  st_checkbox box (negb (any_api_configured cfg)).

(** What [main] writes when [Config.validate()] names missing values. *)
Definition validation_notices (cfg : Config) : list notification :=
  match validate cfg with
  | [] => []
  | missing_config =>
      [ st_error ("⚠️ Missing required configuration: " +:+ join ", " missing_config);
        st_info "Please set up your `.env` file with the required API keys. See `.env.example` for reference." ]
  end.

(** The [if]/[elif] chain on [selected_page]. *)
Definition page_routing (cl : clients) (selected_page : string)
    (trades journals : list row) (market_data : gmap string DataFrame) : rendering :=
  let trade_analytics := {| ta_trades := trades |} in
  let predictive_engine :=
    {| pe_trades := trades; pe_journals := journals;
       pe_market_data := market_data !! "MES" |} in
  if String.eqb selected_page "Dashboard"
  then DashboardPage trade_analytics trades journals
  else if String.eqb selected_page "Trade Analysis"
  then AnalysisPage trade_analytics trades journals
  else if String.eqb selected_page "Interactive Charts"
  then ChartsPage trades journals market_data
  else if String.eqb selected_page "AI Insights"
  then InsightsPage predictive_engine (nlp_processor cl) trades journals market_data
  else NoPage.

Variable sv : services World DataFrame.
Variable ord : set_order.

(** [main], for the page [selected_page] the sidebar returned and the
    setting of the sample-data box.  Titles, metrics and dividers only draw. *)
Definition main (cfg : Config) (selected_page : string) (box : option bool)
  : M (state World DataFrame) rendering :=
  let cl := init_clients cfg in
  let missing_config := validate cfg in
  (match missing_config with
   | [] => ret tt
   | _ :: _ =>
       notify (st_error ("⚠️ Missing required configuration: "
                         +:+ join ", " missing_config));;
       notify (st_info "Please set up your `.env` file with the required API keys. See `.env.example` for reference.")
   end);;
  let is_any_api_configured :=
    is_supabase_configured cfg || is_topstep_configured cfg
    || is_databento_configured cfg || is_openai_configured cfg in
  let use_sample_data := st_checkbox box (negb is_any_api_configured) in
  '(trades, journals, market_data) ← load_data sv ord cl use_sample_data;
  ret (page_routing cl selected_page trades journals market_data).

End Main.

End App.

(** ** [streamlit_app.py] *)
Module StreamlitApp.

(** *** Secrets, environment and clients *)

(** [st.secrets[key]]: without a secrets file every lookup raises
    [FileNotFoundError]; with one, a missing key raises [KeyError]. *)
Definition st_secrets {S} (secrets : option row) (key : string) : M S (option string) :=
  match secrets with
  | None => raise (FileNotFoundError "No secrets found.")
  | Some table => v ← subscript table key; ret (Some v)
  end.

(** [os.getenv(key)] *)
Definition os_getenv (environ : row) (key : string) : option string := environ !! key.

(** [try: body  except FileNotFoundError: handler] *)
Definition try_except_file_not_found {S A} (body handler : M S A) : M S A :=
  λ s, match body s with
       | (Raised (FileNotFoundError _), s') => handler s'
       | r => r
       end.

(** The three module-level variables. *)
Record settings : Type := {
  supabase_url : option string;
  supabase_key : option string;
  databento_api_key : option string
}.

Definition read_settings {S} (secrets : option row) (environ : row) : M S settings :=
  try_except_file_not_found
    (u ← st_secrets secrets "SUPABASE_URL";
     k ← st_secrets secrets "SUPABASE_KEY";
     d ← st_secrets secrets "DATABENTO_API_KEY";
     ret {| supabase_url := u; supabase_key := k; databento_api_key := d |})
    (ret {| supabase_url := os_getenv environ "SUPABASE_URL";
            supabase_key := os_getenv environ "SUPABASE_KEY";
            databento_api_key := os_getenv environ "DATABENTO_API_KEY" |}).

(** [create_client(url, key)] and [db.Historical(key)], by their arguments. *)
Record Client : Type := { client_url : option string; client_key : option string }.
Record Historical : Type := { historical_key : option string }.




(** Calls that leave the process, as they are made. *)
Inductive call : Type :=
  | AuthSignUp (email password : string)
  | AuthSignInWithPassword (email password : string)
  | TimeseriesGetRange.

(** The radio button of the form, and what the user did to the page that
    the previous run drew. *)
Inductive auth_choice : Type := SignIn | SignUp.

Inductive interaction : Type :=
  | Idle
  | SubmitForm (choice : auth_choice) (email password : string)
  | ClickSignOut
  | ClickFetchSampleData.

(** The auth functions, as entries of a history. *)
Inductive auth_action : Type := DidSignUp | DidSignIn | DidSignOut.

(** The branch of [if 'user' not in st.session_state] that is drawn. *)
Inductive view : Type := AuthenticationView | DashboardView.

Section Program.
Context {World User DataFrame : Type}.

(** [res] of the auth calls; only [res.user] is read. *)
Record AuthResponse : Type := { user : User }.

Record services : Type := {
  auth_sign_up : Client → string → string → World → reply AuthResponse * World;
  auth_sign_in_with_password :
    Client → string → string → World → reply AuthResponse * World;
  timeseries_get_range : Historical → World → reply DataFrame * World
}.

(** [session_state] holds the entries the script itself assigns; the keys
    Streamlit keeps there for its widgets are not part of it. *)
Record state : Type := {
  world : World;
  ui : list notification;
  calls : list call;
  session_state : gmap string User;
  shown : list DataFrame
}.

Definition notify (n : notification) : M state unit :=
  modify (λ s, {| world := world s; ui := ui s ++ [n]; calls := calls s;
                  session_state := session_state s; shown := shown s |}).

Definition set_session (f : gmap string User → gmap string User) : M state unit :=
  modify (λ s, {| world := world s; ui := ui s; calls := calls s;
                  session_state := f (session_state s); shown := shown s |}).

(** [st.dataframe(df)] *)
Definition st_dataframe (df : DataFrame) : M state unit :=
  modify (λ s, {| world := world s; ui := ui s; calls := calls s;
                  session_state := session_state s; shown := shown s ++ [df] |}).

(** [key in st.session_state] *)
Definition in_session (key : string) : M state bool :=
  gets (λ s, bool_decide (is_Some (session_state s !! key))).

(** [del st.session_state[key]] *)
Definition del_session (key : string) : M state unit :=
  present ← in_session key;
  if (present : bool) then set_session (delete key) else raise (KeyError key).

(** A call to a service client: recorded, then answered or raised. *)
Definition service (c : call) {A} (f : World → reply A * World) : M state A :=
  λ s, let '(r, w) := f (world s) in
       let s' := {| world := w; ui := ui s; calls := calls s ++ [c];
                    session_state := session_state s; shown := shown s |} in
       match r with
       | Answers a => (Returned a, s')
       | Throws m => (Raised (ServiceError m), s')
       end.

Variable sv : services.
Variable supabase : option Client.
Variable db_client : option Historical.

Definition sign_up (email password : string) : M state (option User * option string) :=
  match supabase with
  | None =>
      notify (st_error "Supabase client is not initialized. Check your API keys.");;
      ret (None, Some "Supabase client not initialized.")
  | Some c =>
      try_except
        (res ← service (AuthSignUp email password) (auth_sign_up sv c email password);
         notify (st_success
           "Sign-up successful! Please check your email to verify your account.");;
         ret (Some (user res), None))
        (λ e, ret (None, Some (str e)))
  end.

Definition sign_in (email password : string) : M state (option User * option string) :=
  match supabase with
  | None =>
      notify (st_error "Supabase client is not initialized. Check your API keys.");;
      ret (None, Some "Supabase client not initialized.")
  | Some c =>
      try_except
        (res ← service (AuthSignInWithPassword email password)
                       (auth_sign_in_with_password sv c email password);
         set_session (<["user" := user res]>);;
         notify (st_success "Signed in successfully!");;
         ret (Some (user res), None))
        (λ e, ret (None, Some (str e)))
  end.

Definition sign_out : M state unit :=
  present ← in_session "user";
  (if (present : bool) then del_session "user" else ret tt);;
  notify (st_success "You have been signed out.").

(** *** The page

    One run of the script body below the function definitions.  It returns
    the view drawn and whether it ended in [st.rerun()]. *)
Definition about_text : string :=
  "This is the authentication portal for the Galamidas application.".

(** The state [s] once the About tab has written its line. *)
Definition with_about (s : state) : state :=
  {| world := world s; ui := ui s ++ [st_info about_text]; calls := calls s;
     session_state := session_state s; shown := shown s |}.

(** [with auth_tab:] the form and what its submission does. *)
Definition authentication_form (i : interaction) : M state bool :=
  match i with
  | SubmitForm SignUp email password =>
      '(_, error) ← sign_up email password;
      (if truthy error
       then notify (st_error ("Sign-up failed: " +:+ default "" error))
       else ret tt);;
      ret false
  | SubmitForm SignIn email password =>
      '(_, error) ← sign_in email password;
      if truthy error
      then notify (st_error ("Sign-in failed: " +:+ default "" error));; ret false
      else ret true
  | _ => ret false
  end.

(** The signed-out page: the About tab, then the Authentication tab. *)
Definition authentication_view (i : interaction) : M state bool :=
  notify (st_info about_text);;
  authentication_form i.

Definition dashboard_view (i : interaction) : M state unit :=
  match db_client with
  | Some d =>
      match i with
      | ClickFetchSampleData =>
          try_except
            (df ← service TimeseriesGetRange (timeseries_get_range sv d);
             notify (st_success "Successfully fetched data!");;
             st_dataframe df)
            (λ e, notify (st_error ("Failed to fetch data from Databento: " +:+ str e)))
      | _ => ret tt
      end
  | None =>
      notify (st_warning "Databento client is not initialized. Please check your API key.")
  end.

Definition page (i : interaction) : M state (view * bool) :=
  logged_in ← in_session "user";
  if (logged_in : bool)
  then dashboard_view i;; ret (DashboardView, false)
  else rerun ← authentication_view i; ret (AuthenticationView, rerun).

(** A widget can be used only if the page drawn from [s] has it: the form on
    the authentication view, the Sign Out button on the dashboard view, the
    fetch button there when there is a Databento client. *)
Definition enabled (s : state) (i : interaction) : bool :=
  let logged_in := bool_decide (is_Some (session_state s !! "user")) in
  match i with
  | Idle => true
  | SubmitForm _ _ _ => negb logged_in
  | ClickSignOut => logged_in
  | ClickFetchSampleData => logged_in && bool_decide (is_Some db_client)
  end.

(** One user interaction: the [on_click] callback of the Sign Out button runs
    first, then the script; [st.rerun()] runs the script once more, with no
    widget triggered. *)
Definition run (i : interaction) : M state view :=
  (match i with ClickSignOut => sign_out | _ => ret tt end);;
  '(v, rerun) ← page i;
  if (rerun : bool) then '(v', _) ← page Idle; ret v' else ret v.

(** The service call an interaction leads to on the page drawn from [s]:
    the one of its widget, if the page has the widget and the client is
    there. *)
Definition widget_calls (s : state) (i : interaction) : list call :=
  let logged_in := bool_decide (is_Some (session_state s !! "user")) in
  match i with
  | SubmitForm SignUp email password =>
      if negb logged_in && bool_decide (is_Some supabase)
      then [AuthSignUp email password] else []
  | SubmitForm SignIn email password =>
      if negb logged_in && bool_decide (is_Some supabase)
      then [AuthSignInWithPassword email password] else []
  | ClickFetchSampleData =>
      if logged_in && bool_decide (is_Some db_client) then [TimeseriesGetRange] else []
  | _ => []
  end.

(** *** Histories

    The auth calls of one interaction that succeeded: [sign_up] and [sign_in]
    succeed when they return no error string, [sign_out] always does. *)
Definition succeeded (r : outcome (option User * option string) * state) : bool :=
  match fst r with
  | Returned (_, None) => true
  | _ => false
  end.

Definition achieved (s : state) (i : interaction) : list auth_action :=
  match i with
  | SubmitForm SignUp email password =>
      if succeeded (sign_up email password s) then [DidSignUp] else []
  | SubmitForm SignIn email password =>
      if succeeded (sign_in email password s) then [DidSignIn] else []
  | ClickSignOut => [DidSignOut]
  | _ => []
  end.

(** A browser session: interactions one after the other, each on a widget the
    page shows at that moment.  It yields the successful auth actions in
    order and the state reached; [None] when a widget is not there. *)
Fixpoint browse (l : list interaction) (s : state) : option (list auth_action * state) :=
  match l with
  | [] => Some ([], s)
  | i :: rest =>
      if enabled s i
      then match browse rest (snd (run i s)) with
           | Some (h, s') => Some (achieved s i ++ h, s')
           | None => None
           end
      else None
  end.

(** The state [s] with another session dictionary and more notifications. *)
Definition with_session (s : state) (m : gmap string User) (n : list notification) : state :=
  {| world := world s; ui := ui s ++ n; calls := calls s;
     session_state := m; shown := shown s |}.

End Program.
Arguments services : clear implicits.
Arguments state : clear implicits.
Arguments AuthResponse : clear implicits.

End StreamlitApp.


(** ** A small world to run the scripts in

    The hidden world is a counter of the calls answered.  The auth service
    knows one password; the market-data vendor has no data for ["NQ"]. *)
Module Demo.

Definition auth : StreamlitApp.services nat string unit :=
  {| StreamlitApp.auth_sign_up := λ _ email _ w,
       (Answers {| StreamlitApp.user := email |}, S w);
     StreamlitApp.auth_sign_in_with_password := λ _ email password w,
       if String.eqb password "correct horse"
       then (Answers {| StreamlitApp.user := email |}, S w)
       else (Throws "Invalid login credentials", S w);
     StreamlitApp.timeseries_get_range := λ _ w, (Answers tt, S w) |}.

Definition client : StreamlitApp.Client :=
  {| StreamlitApp.client_url := Some "https://demo.supabase.co";
     StreamlitApp.client_key := Some "anon-key" |}.

Definition historical : StreamlitApp.Historical :=
  {| StreamlitApp.historical_key := Some "db-demo" |}.

Definition fresh : StreamlitApp.state nat string unit :=
  {| StreamlitApp.world := 0%nat; StreamlitApp.ui := []; StreamlitApp.calls := [];
     StreamlitApp.session_state := ∅; StreamlitApp.shown := [] |}.

(** A visit: a sign-up, a mistyped password, a sign-in, a sign-out, a sign-in. *)
Definition visit : list StreamlitApp.interaction :=
  [ StreamlitApp.SubmitForm StreamlitApp.SignUp "ann@example.org" "correct horse";
    StreamlitApp.SubmitForm StreamlitApp.SignIn "ann@example.org" "wrong";
    StreamlitApp.SubmitForm StreamlitApp.SignIn "ann@example.org" "correct horse";
    StreamlitApp.ClickFetchSampleData;
    StreamlitApp.ClickSignOut;
    StreamlitApp.SubmitForm StreamlitApp.SignIn "ann@example.org" "correct horse" ].

(** The trades table: three trades on two symbols; and one journal entry. *)
Definition rows : list row :=
  [ {[ "symbol" := "MES"; "side" := "long" ]};
    {[ "symbol" := "NQ"; "side" := "short" ]};
    {[ "symbol" := "MES"; "side" := "short" ]} ].

Definition notes : list row := [ {[ "entry" := "held too long" ]} ].

Definition market : App.services nat string :=
  {| App.fetch_trades := λ _ w, (Answers rows, S w);
     App.fetch_journals := λ _ w, (Answers notes, S w);
     App.get_candlestick_data := λ _ symbol _ _ w,
       if String.eqb symbol "NQ"
       then (Throws "no data for NQ", S w)
       else (Answers ("candles of " +:+ symbol), S w);
     App.datetime_now := λ w, (1790000000000000 + Z.of_nat w, S w);
     App.generate_trades := λ n w, (replicate n {[ "symbol" := "MES" ]}, S w);
     App.generate_journals := λ ts w, ((λ _, {[ "entry" := "sample" ]}) <$> ts, S w);
     App.path_exists := λ _ w, (false, w);
     App.read_csv := λ _ w, (Throws "No such file or directory", w);
     App.to_datetime_timestamp := λ df, Answers df |}.

Definition start : App.state nat string :=
  {| App.world := 0%nat; App.ui := []; App.calls := []; App.vars := App.initial_vars |}.

(** Five configurations: nothing set; only the OpenAI key; Supabase alone;
    Databento alone; Supabase and Databento. *)
Definition no_credentials : App.Config :=
  {| App.SUPABASE_URL := None; App.SUPABASE_KEY := None; App.TOPSTEP_API_KEY := None;
     App.DATABENTO_API_KEY := None; App.OPENAI_API_KEY := None;
     App.OPENAI_MODEL := Some "gpt-4";
     App.is_supabase_configured := false; App.is_topstep_configured := false;
     App.is_databento_configured := false; App.is_openai_configured := false;
     App.validate := ["SUPABASE_URL"; "SUPABASE_KEY"; "OPENAI_API_KEY"] |}.

Definition only_openai : App.Config :=
  {| App.SUPABASE_URL := None; App.SUPABASE_KEY := None; App.TOPSTEP_API_KEY := None;
     App.DATABENTO_API_KEY := None; App.OPENAI_API_KEY := Some "sk-demo";
     App.OPENAI_MODEL := Some "gpt-4";
     App.is_supabase_configured := false; App.is_topstep_configured := false;
     App.is_databento_configured := false; App.is_openai_configured := true;
     App.validate := ["SUPABASE_URL"; "SUPABASE_KEY"] |}.

Definition only_supabase : App.Config :=
  {| App.SUPABASE_URL := Some "https://demo.supabase.co";
     App.SUPABASE_KEY := Some "anon-key"; App.TOPSTEP_API_KEY := None;
     App.DATABENTO_API_KEY := None; App.OPENAI_API_KEY := None;
     App.OPENAI_MODEL := Some "gpt-4";
     App.is_supabase_configured := true; App.is_topstep_configured := false;
     App.is_databento_configured := false; App.is_openai_configured := false;
     App.validate := ["OPENAI_API_KEY"] |}.

Definition only_databento : App.Config :=
  {| App.SUPABASE_URL := None; App.SUPABASE_KEY := None; App.TOPSTEP_API_KEY := None;
     App.DATABENTO_API_KEY := Some "db-demo"; App.OPENAI_API_KEY := None;
     App.OPENAI_MODEL := Some "gpt-4";
     App.is_supabase_configured := false; App.is_topstep_configured := false;
     App.is_databento_configured := true; App.is_openai_configured := false;
     App.validate := ["SUPABASE_URL"; "SUPABASE_KEY"; "OPENAI_API_KEY"] |}.

Definition supabase_and_databento : App.Config :=
  {| App.SUPABASE_URL := Some "https://demo.supabase.co";
     App.SUPABASE_KEY := Some "anon-key"; App.TOPSTEP_API_KEY := None;
     App.DATABENTO_API_KEY := Some "db-demo"; App.OPENAI_API_KEY := None;
     App.OPENAI_MODEL := Some "gpt-4";
     App.is_supabase_configured := true; App.is_topstep_configured := false;
     App.is_databento_configured := true; App.is_openai_configured := false;
     App.validate := ["OPENAI_API_KEY"] |}.

(** A deployment with a secrets file, on a machine whose environment still
    carries the developer's own values. *)
Definition secrets : row :=
  {[ "SUPABASE_URL" := "https://deployed.supabase.co";
     "SUPABASE_KEY" := "deployed-key";
     "DATABENTO_API_KEY" := "db-deployed" ]}.

Definition environ : row :=
  {[ "SUPABASE_URL" := "https://local.supabase.co";
     "SUPABASE_KEY" := "local-key";
     "DATABENTO_API_KEY" := "db-local" ]}.

Definition deployed_settings : StreamlitApp.settings :=
  {| StreamlitApp.supabase_url := Some "https://deployed.supabase.co";
     StreamlitApp.supabase_key := Some "deployed-key";
     StreamlitApp.databento_api_key := Some "db-deployed" |}.





(** A secrets file that lacks the Databento key. *)
Definition partial_secrets : row :=
  {[ "SUPABASE_URL" := "https://deployed.supabase.co";
     "SUPABASE_KEY" := "deployed-key" ]}.

(** A trades table whose last row has no symbol. *)
Definition ragged_rows : list row := rows ++ [ {[ "side" := "long" ]} ].

Definition ragged_market : App.services nat string :=
  {| App.fetch_trades := λ _ w, (Answers ragged_rows, S w);
     App.fetch_journals := App.fetch_journals market;
     App.get_candlestick_data := App.get_candlestick_data market;
     App.datetime_now := App.datetime_now market;
     App.generate_trades := App.generate_trades market;
     App.generate_journals := App.generate_journals market;
     App.path_exists := App.path_exists market;
     App.read_csv := App.read_csv market;
     App.to_datetime_timestamp := App.to_datetime_timestamp market |}.

(** The same world with the sample CSV in place. *)
Definition market_with_csv : App.services nat string :=
  {| App.fetch_trades := App.fetch_trades market;
     App.fetch_journals := App.fetch_journals market;
     App.get_candlestick_data := App.get_candlestick_data market;
     App.datetime_now := App.datetime_now market;
     App.generate_trades := App.generate_trades market;
     App.generate_journals := App.generate_journals market;
     App.path_exists := λ _ w, (true, w);
     App.read_csv := λ _ w, (Answers "csv", w);
     App.to_datetime_timestamp := λ df, Answers (df +:+ " with timestamps") |}.

(** What the vendor of [market] answers for a symbol, whenever asked. *)
Definition vendor (symbol : string) : reply string :=
  if String.eqb symbol "NQ"
  then Throws "no data for NQ"
  else Answers ("candles of " +:+ symbol).

(** A world whose vendor answers by [vendor]. *)
Definition vendor_market : App.services nat string :=
  {| App.fetch_trades := App.fetch_trades market;
     App.fetch_journals := App.fetch_journals market;
     App.get_candlestick_data := λ _ symbol _ _ w, (vendor symbol, S w);
     App.datetime_now := App.datetime_now market;
     App.generate_trades := App.generate_trades market;
     App.generate_journals := App.generate_journals market;
     App.path_exists := App.path_exists market;
     App.read_csv := App.read_csv market;
     App.to_datetime_timestamp := App.to_datetime_timestamp market |}.


(** An auth service that fails without a message. *)
Definition mute_auth : StreamlitApp.services nat string unit :=
  {| StreamlitApp.auth_sign_up := λ _ _ _ w, (Throws "", S w);
     StreamlitApp.auth_sign_in_with_password := λ _ _ _ w, (Throws "", S w);
     StreamlitApp.timeseries_get_range := λ _ w, (Throws "timeout", S w) |}.

(** A session in which Ann is signed in; it holds one more key. *)
Definition signed_in : StreamlitApp.state nat string unit :=
  {| StreamlitApp.world := 0%nat; StreamlitApp.ui := []; StreamlitApp.calls := [];
     StreamlitApp.session_state := {[ "user" := "ann@example.org"; "theme" := "dark" ]};
     StreamlitApp.shown := [] |}.

(** Where the visit ends. *)
Definition after_visit : StreamlitApp.state nat string unit :=
  foldl (λ s i, snd (StreamlitApp.run auth (Some client) (Some historical) i s))
        fresh visit.

End Demo.

(** * Properties *)

Set Warnings "-clear-no-such-hyp".

Ltac unfold_m :=
  unfold mbind, M_bind, mret, M_ret, bind, ret, gets, modify, raise, try_except.

Lemma ret_returns {S A} (a : A) : always_returns (ret (S:=S) a).
Proof. intros s. by exists a, s. Qed.

Lemma bind_returns {S A B} (m : M S A) (k : A → M S B) :
  always_returns m → (∀ a, always_returns (k a)) → always_returns (m ≫= k).
Proof.
  intros Hm Hk s. destruct (Hm s) as (a & s' & E). destruct (Hk a s') as (b & s'' & E').
  exists b, s''. unfold_m. by rewrite E.
Qed.

(** ** The authentication functions of [streamlit_app.py] *)
Section Authentication.
Import StreamlitApp.
Context {World User DataFrame : Type}.
Variable sv : services World User DataFrame.
Variable supabase : option Client.
Variable db_client : option Historical.
Implicit Types s : state World User DataFrame.

Lemma sign_out_eq s :
  sign_out s = (Returned tt,
                with_session s (delete "user" (session_state s))
                  [st_success "You have been signed out."]).
Proof.
  unfold sign_out, del_session, in_session, set_session, notify, with_session.
  unfold_m.
  destruct (session_state s !! "user") eqn:E; simpl.
  - rewrite E. reflexivity.
  - rewrite delete_id by done. reflexivity.
Qed.

Lemma sign_up_spec email password s :
  ∃ r s', sign_up sv supabase email password s = (Returned r, s')
          ∧ session_state s' = session_state s.
Proof.
  unfold sign_up, service, notify. unfold_m.
  destruct supabase as [c|]; simpl; [|eauto].
  destruct (auth_sign_up sv c email password (world s)) as [[res|m] w]; simpl; eauto.
Qed.

Lemma sign_up_ok c email password s res w :
  supabase = Some c →
  auth_sign_up sv c email password (world s) = (Answers res, w) →
  sign_up sv supabase email password s =
  (Returned (Some (user res), None),
   {| world := w;
      ui := ui s ++ [st_success
              "Sign-up successful! Please check your email to verify your account."];
      calls := calls s ++ [AuthSignUp email password];
      session_state := session_state s; shown := shown s |}).
Proof.
  intros -> H. unfold sign_up, service, notify. unfold_m. rewrite H. reflexivity.
Qed.

Lemma sign_up_raises c email password s m w :
  supabase = Some c →
  auth_sign_up sv c email password (world s) = (Throws m, w) →
  sign_up sv supabase email password s =
  (Returned (None, Some m),
   {| world := w; ui := ui s; calls := calls s ++ [AuthSignUp email password];
      session_state := session_state s; shown := shown s |}).
Proof.
  intros -> H. unfold sign_up, service, notify. unfold_m. rewrite H. reflexivity.
Qed.

Lemma sign_in_ok c email password s res w :
  supabase = Some c →
  auth_sign_in_with_password sv c email password (world s) = (Answers res, w) →
  sign_in sv supabase email password s =
  (Returned (Some (user res), None),
   {| world := w; ui := ui s ++ [st_success "Signed in successfully!"];
      calls := calls s ++ [AuthSignInWithPassword email password];
      session_state := <["user" := user res]> (session_state s);
      shown := shown s |}).
Proof.
  intros -> H. unfold sign_in, service, set_session, notify. unfold_m.
  rewrite H. reflexivity.
Qed.

Lemma sign_in_raises c email password s m w :
  supabase = Some c →
  auth_sign_in_with_password sv c email password (world s) = (Throws m, w) →
  sign_in sv supabase email password s =
  (Returned (None, Some m),
   {| world := w; ui := ui s;
      calls := calls s ++ [AuthSignInWithPassword email password];
      session_state := session_state s; shown := shown s |}).
Proof.
  intros -> H. unfold sign_in, service, set_session, notify. unfold_m.
  rewrite H. reflexivity.
Qed.

Lemma sign_in_uninitialized email password s :
  supabase = None →
  sign_in sv supabase email password s =
  (Returned (None, Some "Supabase client not initialized."),
   with_session s (session_state s)
     [st_error "Supabase client is not initialized. Check your API keys."]).
Proof. intros ->. reflexivity. Qed.

(** [sign_in] returns, and it touches the session exactly when it returns
    no error string. *)
Lemma sign_in_spec email password s :
  ∃ r s', sign_in sv supabase email password s = (Returned r, s')
    ∧ ((r.2 = None ∧ ∃ u, session_state s' = <["user" := u]> (session_state s))
       ∨ (is_Some r.2 ∧ session_state s' = session_state s)).
Proof.
  unfold sign_in, service, set_session, notify. unfold_m.
  destruct supabase as [c|]; simpl; [|eauto 10].
  destruct (auth_sign_in_with_password sv c email password (world s)) as [[res|m] w];
    simpl; eauto 10.
Qed.

Lemma dashboard_view_spec i s :
  ∃ s', dashboard_view sv db_client i s = (Returned tt, s')
        ∧ session_state s' = session_state s.
Proof.
  unfold dashboard_view, service, notify, st_dataframe. unfold_m.
  destruct db_client as [d|]; simpl; [|eauto].
  destruct i; eauto.
  destruct (timeseries_get_range sv d (world s)) as [[df|m] w]; simpl; eauto.
Qed.

Lemma page_logged_in i s :
  is_Some (session_state s !! "user") →
  ∃ s', page sv supabase db_client i s = (Returned (DashboardView, false), s')
        ∧ session_state s' = session_state s.
Proof.
  intros [u E]. unfold page, in_session. unfold_m. rewrite E. simpl.
  destruct (dashboard_view_spec i s) as (s' & -> & H). eauto.
Qed.

Lemma page_logged_out i s :
  session_state s !! "user" = None →
  (∀ c e p, i ≠ SubmitForm c e p) →
  page sv supabase db_client i s = (Returned (AuthenticationView, false), with_about s).
Proof.
  intros E Hi. unfold page, in_session, authentication_view, notify. unfold_m.
  rewrite E. simpl.
  destruct i; try reflexivity. by destruct (Hi choice email password).
Qed.

(** The page on the signed-out state is the form after the About line. *)
Lemma page_signed_out i s :
  session_state s !! "user" = None →
  page sv supabase db_client i s
  = match authentication_form sv supabase i (with_about s) with
    | (Returned rerun, s') => (Returned (AuthenticationView, rerun), s')
    | (Raised e, s') => (Raised e, s')
    end.
Proof.
  intros E. unfold page, in_session, authentication_view, notify. unfold_m.
  rewrite E. simpl. fold (with_about s).
  by destruct (authentication_form sv supabase i (with_about s)) as [[b|e] s'].
Qed.

(** What the About line changes for [sign_in]: nothing but the log. *)
Lemma sign_in_with_about email password s :
  fst (sign_in sv supabase email password (with_about s))
  = fst (sign_in sv supabase email password s)
  ∧ session_state (snd (sign_in sv supabase email password (with_about s)))
    = session_state (snd (sign_in sv supabase email password s)).
Proof.
  unfold sign_in, service, set_session, notify. unfold_m.
  destruct supabase as [c|]; simpl; [|done].
  by destruct (auth_sign_in_with_password sv c email password (world s))
    as [[res|m] w].
Qed.

Lemma page_sign_up email password s :
  session_state s !! "user" = None →
  ∃ s', page sv supabase db_client (SubmitForm SignUp email password) s
        = (Returned (AuthenticationView, false), s')
        ∧ session_state s' = session_state s.
Proof.
  intros E. rewrite page_signed_out by done. unfold authentication_form. unfold_m.
  destruct (sign_up_spec email password (with_about s)) as ([u err] & s' & -> & H).
  unfold notify. unfold_m.
  destruct (truthy err); simpl; eauto.
Qed.

Lemma page_sign_in email password s :
  session_state s !! "user" = None →
  ∃ b s', page sv supabase db_client (SubmitForm SignIn email password) s
          = (Returned (AuthenticationView, b), s')
          ∧ session_state s' = session_state (snd (sign_in sv supabase email password s)).
Proof.
  intros E. rewrite page_signed_out by done. unfold authentication_form. unfold_m.
  destruct (sign_in_with_about email password s) as [_ <-].
  destruct (sign_in sv supabase email password (with_about s)) as [[[u err]|e] s'] eqn:Es.
  - unfold notify. unfold_m. destruct (truthy err); simpl; eauto.
  - destruct (sign_in_spec email password (with_about s)) as (r & s'' & Er & _).
    congruence.
Qed.

Lemma page_returns i : always_returns (page sv supabase db_client i).
Proof.
  intros s. destruct (session_state s !! "user") eqn:E.
  - destruct (page_logged_in i s) as (s' & -> & _); eauto.
  - destruct i as [|[|] e p| |].
    + rewrite page_logged_out by done. eauto.
    + destruct (page_sign_in e p s E) as (b & s' & -> & _). eauto.
    + destruct (page_sign_up e p s E) as (s' & -> & _). eauto.
    + rewrite page_logged_out by done. eauto.
    + rewrite page_logged_out by done. eauto.
Qed.

Lemma page_idle_session s :
  session_state (snd (page sv supabase db_client Idle s)) = session_state s.
Proof.
  destruct (session_state s !! "user") eqn:E.
  - destruct (page_logged_in Idle s) as (s' & -> & H); eauto.
  - by rewrite page_logged_out.
Qed.

Lemma run_returns i : always_returns (run sv supabase db_client i).
Proof.
  unfold run. apply bind_returns.
  - destruct i; try apply ret_returns. intros s. rewrite sign_out_eq. eauto.
  - intros _. apply bind_returns; [apply page_returns|].
    intros [v [|]]; [|apply ret_returns].
    apply bind_returns; [apply page_returns|]. intros [v' b]. apply ret_returns.
Qed.

(** The session dictionary after one interaction. *)
Lemma run_session i s :
  enabled db_client s i = true →
  session_state (snd (run sv supabase db_client i s)) =
  match i with
  | SubmitForm SignIn email password =>
      session_state (snd (sign_in sv supabase email password s))
  | ClickSignOut => delete "user" (session_state s)
  | _ => session_state s
  end.
Proof.
  unfold enabled, run. intros En. unfold_m.
  destruct i as [|[|] e p| |]; simpl in *.
  - destruct (page_returns Idle s) as ([v b] & s' & E).
    pose proof (page_idle_session s) as H. rewrite E in *. simpl in *.
    destruct b; [|done].
    destruct (page_returns Idle s') as ([v' b'] & s'' & E').
    pose proof (page_idle_session s') as H'. rewrite E' in *. simpl in *. congruence.
  - apply negb_true_iff, bool_decide_eq_false in En.
    assert (session_state s !! "user" = None) as E0 by (by apply eq_None_not_Some).
    destruct (page_sign_in e p s E0) as (b & s' & -> & H). simpl.
    destruct b; [|done].
    destruct (page_returns Idle s') as ([v' b'] & s'' & E').
    pose proof (page_idle_session s') as H'. rewrite E' in *. simpl in *. congruence.
  - apply negb_true_iff, bool_decide_eq_false in En.
    assert (session_state s !! "user" = None) as E0 by (by apply eq_None_not_Some).
    destruct (page_sign_up e p s E0) as (s' & -> & H). done.
  - rewrite sign_out_eq. simpl.
    rewrite page_logged_out; [done| |done].
    simpl. apply lookup_delete_eq.
  - apply andb_true_iff in En as [En _]. apply bool_decide_eq_true in En.
    destruct (page_logged_in ClickFetchSampleData s En) as (s' & -> & H). done.
Qed.

(** One interaction keeps the link between the session and the history. *)
Lemma run_history i s (h : list auth_action) :
  enabled db_client s i = true →
  (is_Some (session_state s !! "user") ↔ last h = Some DidSignIn) →
  is_Some (session_state (snd (run sv supabase db_client i s)) !! "user")
  ↔ last (h ++ achieved sv supabase s i) = Some DidSignIn.
Proof.
  intros En Inv. rewrite run_session by done.
  destruct i as [|[|] e p| |]; simpl in *.
  - by rewrite app_nil_r.
  - unfold succeeded.
    destruct (sign_in_spec e p s) as ([u err] & s' & -> & H); simpl in *.
    destruct H as [[-> [x ->]]|[[m ->] ->]].
    + rewrite last_snoc, lookup_insert_eq. split; eauto.
    + by rewrite app_nil_r.
  - apply negb_true_iff, bool_decide_eq_false in En.
    destruct (succeeded _).
    + rewrite last_snoc. split; [done|]. intros [=].
    + by rewrite app_nil_r.
  - rewrite last_snoc, lookup_delete_eq. split; [by intros [? [=]] | intros [=]].
  - by rewrite app_nil_r.
Qed.

Lemma browse_history l : ∀ s0 (h0 h : list auth_action) s,
  (is_Some (session_state s0 !! "user") ↔ last h0 = Some DidSignIn) →
  browse sv supabase db_client l s0 = Some (h, s) →
  is_Some (session_state s !! "user") ↔ last (h0 ++ h) = Some DidSignIn.
Proof.
  induction l as [|i rest IH]; intros s0 h0 h s Inv; simpl.
  - intros [= <- <-]. by rewrite app_nil_r.
  - destruct (enabled db_client s0 i) eqn:En; [|done].
    destruct (browse _ _ _ rest _) as [[h' s']|] eqn:E; [|done].
    intros [= <- <-]. rewrite app_assoc.
    eapply IH; [|exact E]. by apply run_history.
Qed.

(** C6: a successful [sign_in] stores the returned user under ['user'],
    [sign_out] removes the key, a [sign_in] that fails (the auth service
    raised, or there is no client) leaves the session dictionary as it was;
    and in every state a browser session reaches from a signed-out start,
    ['user'] is present exactly when the last auth action that succeeded was
    a [sign_in]. *)
Theorem session_user_tracks_sign_in :
  (∀ s c email password res w,
     supabase = Some c →
     auth_sign_in_with_password sv c email password (world s) = (Answers res, w) →
     fst (sign_in sv supabase email password s) = Returned (Some (user res), None)
     ∧ session_state (snd (sign_in sv supabase email password s))
       = <["user" := user res]> (session_state s))
  ∧ (∀ s, session_state (snd (sign_out s)) = delete "user" (session_state s)
          ∧ session_state (snd (sign_out s)) !! "user" = None)
  ∧ (∀ s c email password m w,
       supabase = Some c →
       auth_sign_in_with_password sv c email password (world s) = (Throws m, w) →
       fst (sign_in sv supabase email password s) = Returned (None, Some m)
       ∧ session_state (snd (sign_in sv supabase email password s)) = session_state s)
  ∧ (∀ s email password,
       supabase = None →
       fst (sign_in sv supabase email password s)
       = Returned (None, Some "Supabase client not initialized.")
       ∧ session_state (snd (sign_in sv supabase email password s)) = session_state s)
  ∧ (∀ l s0 h s,
       session_state s0 !! "user" = None →
       browse sv supabase db_client l s0 = Some (h, s) →
       is_Some (session_state s !! "user") ↔ last h = Some DidSignIn).
Proof.
  split; [|split; [|split; [|split]]].
  - intros s c email password res w Hc H. by erewrite sign_in_ok.
  - intros s. rewrite sign_out_eq. split; [done|apply lookup_delete_eq].
  - intros s c email password m w Hc H. by erewrite sign_in_raises.
  - intros s email password Hc. by rewrite sign_in_uninitialized.
  - intros l s0 h s Hs Hb. apply (browse_history l s0 [] h s); [|done].
    rewrite Hs. split; [by intros [? [=]] | intros [=]].
Qed.

(** C8: [sign_up] never writes the session dictionary, also when the auth
    service returns a user; a sign-up submitted from the signed-out page
    leaves the application on the authentication view. *)
Theorem sign_up_leaves_session email password s :
  session_state (snd (sign_up sv supabase email password s)) = session_state s
  ∧ (∀ c res w,
       supabase = Some c →
       auth_sign_up sv c email password (world s) = (Answers res, w) →
       fst (sign_up sv supabase email password s) = Returned (Some (user res), None))
  ∧ (session_state s !! "user" = None →
     let r := run sv supabase db_client (SubmitForm SignUp email password) s in
     fst r = Returned AuthenticationView
     ∧ session_state (snd r) !! "user" = None
     ∧ fst (page sv supabase db_client Idle (snd r)) = Returned (AuthenticationView, false)).
Proof.
  split; [|split].
  - by destruct (sign_up_spec email password s) as (r & s' & -> & H).
  - intros c res w Hc H. by erewrite sign_up_ok.
  - intros E. unfold run. unfold_m. simpl.
    destruct (page_sign_up email password s E) as (s' & -> & H). simpl.
    rewrite <- H in E. by rewrite page_logged_out.
Qed.

(** C10: [sign_out] returns from every session state, the state it leaves
    has no ['user'] key, and a second [sign_out] returns too and leaves the
    same session dictionary as the first. *)
Theorem sign_out_total_idempotent s :
  fst (sign_out s) = Returned tt
  ∧ session_state (snd (sign_out s)) !! "user" = None
  ∧ fst (sign_out (snd (sign_out s))) = Returned tt
  ∧ session_state (snd (sign_out (snd (sign_out s)))) = session_state (snd (sign_out s)).
Proof.
  rewrite !sign_out_eq. simpl. repeat split.
  - apply lookup_delete_eq.
  - apply delete_id, lookup_delete_eq.
Qed.

End Authentication.

Lemma session_user_tracks_sign_in_witness :
  is_Some (StreamlitApp.session_state Demo.after_visit !! "user")
  ↔ last [StreamlitApp.DidSignUp; StreamlitApp.DidSignIn;
          StreamlitApp.DidSignOut; StreamlitApp.DidSignIn]
    = Some StreamlitApp.DidSignIn.
Proof.
  apply (proj2 (proj2 (proj2 (proj2
           (session_user_tracks_sign_in Demo.auth (Some Demo.client)
              (Some Demo.historical)))))
           Demo.visit Demo.fresh).
  - reflexivity.
  - vm_compute. reflexivity.
Defined.

Lemma sign_up_leaves_session_witness :
  fst (StreamlitApp.sign_up Demo.auth (Some Demo.client)
         "ann@example.org" "correct horse" Demo.fresh)
  = Returned (Some "ann@example.org", None)
  ∧ StreamlitApp.session_state
      (snd (StreamlitApp.sign_up Demo.auth (Some Demo.client)
              "ann@example.org" "correct horse" Demo.fresh)) = ∅.
Proof.
  destruct (sign_up_leaves_session Demo.auth (Some Demo.client) None
              "ann@example.org" "correct horse" Demo.fresh) as (H1 & H2 & _).
  split.
  - apply (H2 Demo.client {| StreamlitApp.user := "ann@example.org" |} 1%nat);
      reflexivity.
  - exact H1.
Defined.

(** ** Configuration and clients *)
Section Configuration.


Lemma construct_eq {S A} (rejected : option string) (object : A) (s : S) :
  construct rejected object s
  = match rejected with
    | Some m => (Raised (ServiceError m), s)
    | None => (Returned object, s)
    end.
Proof. by destruct rejected. Qed.


(** C7, as the code has it: in [streamlit_app.py] the three values are those
    of Streamlit's secrets whenever a secrets file holding them exists,
    whatever the environment says; they are the environment variables of the
    same names only when there is no secrets file. *)
Theorem settings_from_secrets_then_environment
    {S} (secrets : option row) (environ : row) (s : S) :
  (secrets = None →
   StreamlitApp.read_settings secrets environ s
   = (Returned {| StreamlitApp.supabase_url := StreamlitApp.os_getenv environ "SUPABASE_URL";
                  StreamlitApp.supabase_key := StreamlitApp.os_getenv environ "SUPABASE_KEY";
                  StreamlitApp.databento_api_key :=
                    StreamlitApp.os_getenv environ "DATABENTO_API_KEY" |}, s))
  ∧ (∀ table u k d,
       secrets = Some table →
       table !! "SUPABASE_URL" = Some u →
       table !! "SUPABASE_KEY" = Some k →
       table !! "DATABENTO_API_KEY" = Some d →
       StreamlitApp.read_settings secrets environ s
       = (Returned {| StreamlitApp.supabase_url := Some u;
                      StreamlitApp.supabase_key := Some k;
                      StreamlitApp.databento_api_key := Some d |}, s)).
Proof.
  split.
  - intros ->. reflexivity.
  - intros table u k d -> Hu Hk Hd.
    unfold StreamlitApp.read_settings, StreamlitApp.try_except_file_not_found,
      StreamlitApp.st_secrets, subscript.
    unfold_m. rewrite Hu. simpl. rewrite Hk. simpl. rewrite Hd. reflexivity.
Qed.

End Configuration.



Lemma settings_from_secrets_then_environment_witness :
  StreamlitApp.read_settings (Some Demo.secrets) Demo.environ tt
  = (Returned Demo.deployed_settings, tt).
Proof.
  apply (proj2 (settings_from_secrets_then_environment
                  (Some Demo.secrets) Demo.environ tt) Demo.secrets);
    reflexivity.
Defined.

(** C7 as stated fails: with a secrets file the values used are not the
    environment's. *)
Lemma settings_from_environment_counterexample :
  fst (StreamlitApp.read_settings (Some Demo.secrets) Demo.environ tt)
  = Returned Demo.deployed_settings
  ∧ StreamlitApp.supabase_url Demo.deployed_settings
    ≠ StreamlitApp.os_getenv Demo.environ "SUPABASE_URL"
  ∧ StreamlitApp.supabase_key Demo.deployed_settings
    ≠ StreamlitApp.os_getenv Demo.environ "SUPABASE_KEY"
  ∧ StreamlitApp.databento_api_key Demo.deployed_settings
    ≠ StreamlitApp.os_getenv Demo.environ "DATABENTO_API_KEY".
Proof. vm_compute. repeat split; discriminate. Qed.

(** ** [load_data] *)
Section LoadData.
Import App.
Context {World DataFrame : Type}.
Variable sv : services World DataFrame.
Variable ord : set_order.
Variable cl : clients.
Implicit Types s : state World DataFrame.

Ltac unfold_app :=
  unfold notify, set_trades, set_journals, set_market_data, set_vars, in_process,
    service, pandas.

(** *** The Supabase step *)

Lemma load_supabase_unconfigured s :
  supabase_client cl = None →
  load_supabase sv cl s =
  (Returned tt,
   noted s [st_warning "Supabase client not configured. Cannot fetch live data."] (vars s)).
Proof. intros E. unfold load_supabase. rewrite E. reflexivity. Qed.

Lemma load_supabase_no_trades s c m w :
  supabase_client cl = Some c →
  fetch_trades sv c (world s) = (Throws m, w) →
  load_supabase sv cl s =
  (Returned tt,
   {| world := w;
      ui := ui s ++ [st_error ("Error fetching data from Supabase: " +:+ m)];
      calls := calls s ++ [FetchTrades]; vars := vars s |}).
Proof.
  intros E H. unfold load_supabase. rewrite E. unfold_app. unfold_m. simpl.
  rewrite H. reflexivity.
Qed.

Lemma load_supabase_no_journals s c ts w m w' :
  supabase_client cl = Some c →
  fetch_trades sv c (world s) = (Answers ts, w) →
  fetch_journals sv c w = (Throws m, w') →
  load_supabase sv cl s =
  (Returned tt,
   {| world := w';
      ui := ui s ++ [st_error ("Error fetching data from Supabase: " +:+ m)];
      calls := calls s ++ [FetchTrades; FetchJournals];
      vars := {| trades := ts; journals := journals (vars s);
                 market_data := market_data (vars s) |} |}).
Proof.
  intros E H H'. unfold load_supabase. rewrite E. unfold_app. unfold_m. simpl.
  rewrite H. simpl. rewrite H'. simpl. by rewrite <- app_assoc.
Qed.

Lemma load_supabase_fetched s c ts w js w' :
  supabase_client cl = Some c →
  fetch_trades sv c (world s) = (Answers ts, w) →
  fetch_journals sv c w = (Answers js, w') →
  load_supabase sv cl s =
  (Returned tt,
   {| world := w'; ui := ui s ++ [st_success "Data fetched from Supabase."];
      calls := calls s ++ [FetchTrades; FetchJournals];
      vars := {| trades := ts; journals := js; market_data := market_data (vars s) |} |}).
Proof.
  intros E H H'. unfold load_supabase. rewrite E. unfold_app. unfold_m. simpl.
  rewrite H. simpl. rewrite H'. simpl. by rewrite <- app_assoc.
Qed.

(** Whatever Supabase does, the step returns; it asks for no candles, writes
    one notification and leaves [market_data] alone. *)
Lemma load_supabase_spec s :
  ∃ s' new n,
    load_supabase sv cl s = (Returned tt, s')
    ∧ calls s' = calls s ++ new ∧ requested new = []
    ∧ ui s' = ui s ++ [n]
    ∧ market_data (vars s') = market_data (vars s)
    ∧ (trades (vars s') = trades (vars s)
       ∨ ∃ c w, supabase_client cl = Some c
                ∧ fetch_trades sv c (world s) = (Answers (trades (vars s')), w)).
Proof.
  destruct (supabase_client cl) as [c|] eqn:Ec.
  - destruct (fetch_trades sv c (world s)) as [[ts|m] w] eqn:Et.
    + destruct (fetch_journals sv c w) as [[js|m] w'] eqn:Ej.
      * rewrite (load_supabase_fetched s c ts w js w') by done.
        eexists _, _, _. split_and!; try reflexivity. right. by exists c, w.
      * rewrite (load_supabase_no_journals s c ts w m w') by done.
        eexists _, _, _. split_and!; try reflexivity. right. by exists c, w.
    + rewrite (load_supabase_no_trades s c m w) by done.
      eexists _, _, _. split_and!; try reflexivity. by left.
  - rewrite load_supabase_unconfigured by done.
    eexists _, [], _. split_and!; try reflexivity.
    + simpl. by rewrite app_nil_r.
    + by left.
Qed.

(** *** The market-data step *)

Lemma fetch_symbol_answered d symbol s e w df w' :
  datetime_now sv (world s) = (e, w) →
  get_candlestick_data sv d symbol (e - thirty_days) e w = (Answers df, w') →
  fetch_symbol sv d symbol s =
  (Returned tt,
   {| world := w'; ui := ui s;
      calls := calls s ++ [GetCandlestickData symbol (e - thirty_days) e];
      vars := {| trades := trades (vars s); journals := journals (vars s);
                 market_data := <[symbol := df]> (market_data (vars s)) |} |}).
Proof.
  intros Hn Hc. unfold fetch_symbol. unfold_app. unfold_m. simpl.
  rewrite Hn. simpl. rewrite Hc. reflexivity.
Qed.

Lemma fetch_symbol_raised d symbol s e w m w' :
  datetime_now sv (world s) = (e, w) →
  get_candlestick_data sv d symbol (e - thirty_days) e w = (Throws m, w') →
  fetch_symbol sv d symbol s =
  (Returned tt,
   {| world := w';
      ui := ui s ++ [st_error ("Error fetching market data for " +:+ symbol
                               +:+ " from Databento: " +:+ m)];
      calls := calls s ++ [GetCandlestickData symbol (e - thirty_days) e];
      vars := vars s |}).
Proof.
  intros Hn Hc. unfold fetch_symbol. unfold_app. unfold_m. simpl.
  rewrite Hn. simpl. rewrite Hc. reflexivity.
Qed.

Lemma fetch_symbol_spec d symbol s :
  ∃ s',
    fetch_symbol sv d symbol s = (Returned tt, s')
    ∧ calls s' = calls s ++ candle_calls [symbol] [fst (datetime_now sv (world s))]
    ∧ trades (vars s') = trades (vars s)
    ∧ journals (vars s') = journals (vars s)
    ∧ dom (market_data (vars s')) ⊆ dom (market_data (vars s)) ∪ {[symbol]}
    ∧ (∃ errors, ui s' = ui s ++ errors ∧ Forall (λ n, note_level n = StError) errors).
Proof.
  destruct (datetime_now sv (world s)) as [e w] eqn:Hn.
  destruct (get_candlestick_data sv d symbol (e - thirty_days) e w) as [[df|m] w'] eqn:Hc.
  - rewrite (fetch_symbol_answered d symbol s e w df w') by done.
    eexists. split_and!; try reflexivity.
    + simpl. rewrite dom_insert_L. set_solver.
    + exists []. simpl. by rewrite app_nil_r.
  - rewrite (fetch_symbol_raised d symbol s e w m w') by done.
    eexists. split_and!; try reflexivity.
    + simpl. set_solver.
    + eexists [_]. split; [reflexivity|]. by repeat constructor.
Qed.

Lemma for_each_fetch_symbol_spec d l : ∀ s,
  ∃ s' readings,
    for_each l (fetch_symbol sv d) s = (Returned tt, s')
    ∧ length readings = length l
    ∧ calls s' = calls s ++ candle_calls l readings
    ∧ trades (vars s') = trades (vars s)
    ∧ journals (vars s') = journals (vars s)
    ∧ dom (market_data (vars s')) ⊆ dom (market_data (vars s)) ∪ list_to_set l
    ∧ (∃ errors, ui s' = ui s ++ errors ∧ Forall (λ n, note_level n = StError) errors).
Proof.
  induction l as [|x l IH]; intros s; simpl.
  - exists s, []. split_and!; try done.
    + by rewrite app_nil_r.
    + set_solver.
    + exists []. by rewrite app_nil_r.
  - destruct (fetch_symbol_spec d x s)
      as (s1 & E & Hc & Ht & Hj & Hd & errs & Hu & Herrs).
    destruct (IH s1) as (s2 & rs & E2 & Hl & Hc2 & Ht2 & Hj2 & Hd2 & errs2 & Hu2 & Herrs2).
    exists s2, (fst (datetime_now sv (world s)) :: rs).
    unfold_m. rewrite E, E2. split_and!; try done.
    + simpl. by rewrite Hl.
    + rewrite Hc2, Hc. simpl. by rewrite <- app_assoc.
    + congruence.
    + congruence.
    + set_solver.
    + exists (errs ++ errs2). rewrite Hu2, Hu, app_assoc. split; [done|].
      by apply Forall_app.
Qed.

Lemma requested_candle_calls l readings :
  length readings = length l → requested (candle_calls l readings) = l.
Proof.
  revert readings. induction l as [|x l IH]; intros [|r rs] H; simpl in *; try done.
  f_equal. apply IH. congruence.
Qed.

Lemma requested_app cs cs' : requested (cs ++ cs') = requested cs ++ requested cs'.
Proof. apply omap_app. Qed.

Lemma subscript_present {S} (t : row) key v (s : S) :
  t !! key = Some v → subscript t key s = (Returned v, s).
Proof. intros H. unfold subscript. by rewrite H. Qed.

Lemma subscript_missing {S} (t : row) key (s : S) :
  t !! key = None → subscript t key s = (Raised (KeyError key), s).
Proof. intros H. unfold subscript. by rewrite H. Qed.

Lemma comprehension_symbols ts s :
  Forall has_symbol ts →
  comprehension (λ trade, subscript trade "symbol") ts s = (Returned (symbols_of ts), s).
Proof.
  induction 1 as [|t ts [v Hv] _ IH]; [done|].
  simpl. unfold_m. rewrite (subscript_present t _ v) by done. rewrite IH.
  unfold symbols_of. simpl. by rewrite Hv.
Qed.

Lemma comprehension_key_error ts s :
  ¬ Forall has_symbol ts →
  comprehension (λ trade, subscript trade "symbol") ts s = (Raised (KeyError "symbol"), s).
Proof.
  induction ts as [|t ts IH]; intros H; [by destruct H|].
  simpl. unfold_m.
  destruct (t !! "symbol") as [v|] eqn:Hv.
  - rewrite (subscript_present t _ v) by done.
    rewrite IH; [done|]. intros HF. apply H. constructor; [by exists v|done].
  - by rewrite subscript_missing.
Qed.

Lemma list_set_NoDup l : NoDup (list_set ord l).
Proof. unfold list_set. rewrite iterate_perm. apply NoDup_elements. Qed.

Lemma elem_of_list_set x l : x ∈ list_set ord l ↔ x ∈ l.
Proof. unfold list_set. rewrite iterate_perm. set_solver. Qed.

Lemma elem_of_symbols_of x ts : x ∈ symbols_of ts ↔ ∃ t, t ∈ ts ∧ t !! "symbol" = Some x.
Proof. unfold symbols_of. apply list_elem_of_omap. Qed.

Lemma load_market_data_skipped s :
  databento_client cl = None ∨ trades (vars s) = [] →
  load_market_data sv ord cl s = (Returned tt, s).
Proof.
  intros H. unfold load_market_data. unfold_m.
  destruct H as [-> | ->]; [done|]. by destruct (databento_client cl).
Qed.

Lemma load_market_data_key_error s d :
  databento_client cl = Some d →
  trades (vars s) ≠ [] →
  ¬ Forall has_symbol (trades (vars s)) →
  load_market_data sv ord cl s = (Raised (KeyError "symbol"), s).
Proof.
  intros Hd Hne Hk. unfold load_market_data. unfold_m. rewrite Hd. cbv beta.
  destruct (trades (vars s)) as [|t ts] eqn:Et; [done|].
  by rewrite comprehension_key_error.
Qed.

Lemma load_market_data_fetches s d :
  databento_client cl = Some d →
  trades (vars s) ≠ [] →
  Forall has_symbol (trades (vars s)) →
  load_market_data sv ord cl s
  = for_each (list_set ord (symbols_of (trades (vars s)))) (fetch_symbol sv d) s.
Proof.
  intros Hd Hne Hk. unfold load_market_data. unfold_m. rewrite Hd. cbv beta.
  destruct (trades (vars s)) as [|t ts] eqn:Et; [done|].
  by rewrite comprehension_symbols.
Qed.

Lemma market_step_still s r :
  (r = Returned tt
   ∨ (r = Raised (KeyError "symbol") ∧ ¬ Forall has_symbol (trades (vars s)))) →
  (is_Some (databento_client cl) → Forall has_symbol (trades (vars s)) →
   r = Returned tt ∧ trades (vars s) = []) →
  market_step cl s r s [] [].
Proof.
  intros Hr Hp. unfold market_step. split_and!; try done.
  - destruct Hr as [?|[? ?]]; eauto.
  - by rewrite app_nil_r.
  - constructor.
  - intros x Hx. by apply elem_of_nil in Hx.
  - intros Hd Hk. destruct (Hp Hd Hk) as [-> ->]. done.
  - set_solver.
  - exists []. by rewrite app_nil_r.
Qed.

(** What the market-data step does in every case: it raises nothing but the
    [KeyError] of a row without symbol; the symbols it asks candles for are
    distinct symbols of the trades, one request each. *)
Lemma load_market_data_spec s :
  ∃ r s' l readings,
    load_market_data sv ord cl s = (r, s') ∧ market_step cl s r s' l readings.
Proof.
  destruct (databento_client cl) as [d|] eqn:Hd.
  - destruct (decide (trades (vars s) = [])) as [Et|Et].
    + rewrite load_market_data_skipped by (by right).
      eexists _, _, _, _. split; [done|]. apply market_step_still; [by left|done].
    + destruct (decide (Forall has_symbol (trades (vars s)))) as [Hk|Hk].
      * rewrite (load_market_data_fetches s d) by done.
        destruct (for_each_fetch_symbol_spec d
                    (list_set ord (symbols_of (trades (vars s)))) s)
          as (s' & rs & E & Hl & Hc & Ht & Hj & Hdom & Herr).
        exists (Returned tt), s', (list_set ord (symbols_of (trades (vars s)))), rs.
        split; [done|]. unfold market_step. rewrite Hd. split_and!; try done.
        -- by left.
        -- apply list_set_NoDup.
        -- intros x. by rewrite elem_of_list_set.
        -- intros _ _. split; [done|]. unfold list_set. apply iterate_perm.
      * rewrite (load_market_data_key_error s d) by done.
        eexists _, _, _, _. split; [done|]. apply market_step_still; [by right|done].
  - rewrite load_market_data_skipped by (by left).
    eexists _, _, _, _. split; [done|].
    apply market_step_still; [by left|]. rewrite Hd. by intros []%is_Some_None.
Qed.

(** *** The whole function *)

Lemma load_data_live s r1 s1 r2 s2 :
  load_supabase sv cl (restarted s) = (Returned r1, s1) →
  load_market_data sv ord cl s1 = (r2, s2) →
  load_data sv ord cl false s = (returned_vars r2 s2, s2).
Proof.
  intros E1 E2. unfold load_data, set_vars. unfold_m. fold (restarted s).
  rewrite E1, E2. by destruct r2.
Qed.

Lemma load_data_sample s r s' :
  load_sample sv (restarted s) = (r, s') →
  load_data sv ord cl true s = (returned_vars r s', s').
Proof.
  intros E. unfold load_data, set_vars. unfold_m. fold (restarted s).
  rewrite E. by destruct r.
Qed.

(** The live path, step by step. *)
Lemma load_data_live_spec s :
  ∃ s1 new n r s' l readings,
    load_supabase sv cl (restarted s) = (Returned tt, s1)
    ∧ calls s1 = calls s ++ new ∧ requested new = []
    ∧ ui s1 = ui s ++ [n]
    ∧ market_data (vars s1) = ∅
    ∧ (trades (vars s1) = []
       ∨ ∃ c w, supabase_client cl = Some c
                ∧ fetch_trades sv c (world s) = (Answers (trades (vars s1)), w))
    ∧ market_step cl s1 r s' l readings
    ∧ load_data sv ord cl false s = (returned_vars r s', s').
Proof.
  destruct (load_supabase_spec (restarted s)) as (s1 & new & n & E1 & Hc & Hr & Hu & Hm & Ht).
  destruct (load_market_data_spec s1) as (r & s' & l & rs & E2 & Hstep).
  exists s1, new, n, r, s', l, rs. split_and!; try done.
  by apply load_data_live with tt s1.
Qed.

(** The sample path draws the generated rows and makes no service call; only
    reading the local CSV can make it raise. *)
Lemma load_sample_spec s :
  let ts := fst (generate_trades sv 100 (world s)) in
  let w1 := snd (generate_trades sv 100 (world s)) in
  let js := fst (generate_journals sv ts w1) in
  let w2 := snd (generate_journals sv ts w1) in
  ∃ r s' rest,
    load_sample sv s = (r, s')
    ∧ (r = Returned tt ∨ ∃ m, r = Raised (PandasError m))
    ∧ trades (vars s') = ts
    ∧ journals (vars s') = js
    ∧ ui s' = ui s ++ st_info "Loading sample data..." :: rest
    ∧ calls s' = calls s
    ∧ (fst (path_exists sv sample_market_data_path w2) = false →
       r = Returned tt
       ∧ market_data (vars s') = market_data (vars s)
       ∧ rest = [st_warning ("Sample market data not found at "
                             +:+ sample_market_data_path
                             +:+ ". Please run sample_data_generator.py.")]).
Proof.
  unfold load_sample. unfold_app. unfold_m. simpl.
  destruct (generate_trades sv 100 (world s)) as [ts w1]. simpl.
  destruct (generate_journals sv ts w1) as [js w2]. simpl.
  destruct (path_exists sv sample_market_data_path w2) as [[|] w3]; simpl.
  - destruct (read_csv sv sample_market_data_path w3) as [[df|m] w4]; simpl.
    + destruct (to_datetime_timestamp sv df) as [df'|m]; simpl.
      * eexists _, _, []. split_and!; try reflexivity; try done. by left.
      * eexists _, _, []. split_and!; try reflexivity; try done. right. by exists m.
    + eexists _, _, []. split_and!; try reflexivity; try done. right. by exists m.
  - eexists _, _, [_]. split_and!; try reflexivity; try done.
    + by left.
    + simpl. by rewrite <- app_assoc.
Qed.

Lemma load_data_unconfigured s :
  supabase_client cl = None →
  load_data sv ord cl false s
  = (Returned ([], [], ∅),
     noted s [st_warning "Supabase client not configured. Cannot fetch live data."]
       initial_vars).
Proof.
  intros E.
  rewrite (load_data_live s tt
             (noted s [st_warning "Supabase client not configured. Cannot fetch live data."]
                initial_vars)
             (Returned tt)
             (noted s [st_warning "Supabase client not configured. Cannot fetch live data."]
                initial_vars)).
  - reflexivity.
  - by rewrite load_supabase_unconfigured.
  - apply load_market_data_skipped. by right.
Qed.

Lemma load_data_no_trades s c m w :
  supabase_client cl = Some c →
  fetch_trades sv c (world s) = (Throws m, w) →
  load_data sv ord cl false s
  = (Returned ([], [], ∅),
     {| world := w;
        ui := ui s ++ [st_error ("Error fetching data from Supabase: " +:+ m)];
        calls := calls s ++ [FetchTrades]; vars := initial_vars |}).
Proof.
  intros E H.
  pose proof (load_supabase_no_trades (restarted s) c m w E H) as E1.
  erewrite load_data_live; [|exact E1|apply load_market_data_skipped; by right].
  reflexivity.
Qed.


(** C9: on the live path candles are requested only with a Databento client
    and a non-empty list of trades; with no trades (Supabase returned none, or
    the fetch failed) the market data returned is empty, Databento or not;
    every key of the market data is a symbol of a trade returned. *)
Theorem market_data_only_for_fetched_trades s :
  let r := load_data sv ord cl false s in
  let s' := snd r in
  (∃ new, calls s' = calls s ++ new
          ∧ (requested new ≠ [] →
             is_Some (databento_client cl) ∧ trades (vars s') ≠ []))
  ∧ (trades (vars s') = [] →
     market_data (vars s') = ∅ ∧ fst r = Returned ([], journals (vars s'), ∅))
  ∧ (∀ c m w,
       supabase_client cl = Some c →
       fetch_trades sv c (world s) = (Throws m, w) →
       fst r = Returned ([], [], ∅))
  ∧ (∀ c w,
       supabase_client cl = Some c →
       fetch_trades sv c (world s) = (Answers [], w) →
       ∃ js, fst r = Returned ([], js, ∅))
  ∧ (∀ k, k ∈ dom (market_data (vars s')) → k ∈ symbols_of (trades (vars s')))
  ∧ (∀ ts js md,
       fst r = Returned (ts, js, md) →
       ts = trades (vars s') ∧ js = journals (vars s') ∧ md = market_data (vars s')
       ∧ ∀ k, is_Some (md !! k) → ∃ t, t ∈ ts ∧ t !! "symbol" = Some k).
Proof.
  intros r s'. subst r s'.
  destruct (load_data_live_spec s)
    as (s1 & new & n & r & s' & l & rs & E1 & Hc & Hreq & Hu & Hmd & Hts & Hstep & E).
  destruct Hstep as (Hr & Hlen & Hc' & Hnd & Hin & Hne & Hperm & Ht & Hj & Hdom & Herr).
  assert (∀ k, k ∈ dom (market_data (vars s')) → k ∈ symbols_of (trades (vars s')))
    as Hkeys.
  { intros k Hk. rewrite Ht. apply Hin.
    apply Hdom in Hk. rewrite Hmd, dom_empty_L in Hk. set_solver. }
  assert (trades (vars s') = [] →
          market_data (vars s') = ∅
          ∧ returned_vars r s' = Returned ([], journals (vars s'), ∅)) as Hempty.
  { intros Hnil.
    assert (market_data (vars s') = ∅) as Hm.
    { apply dom_empty_iff_L. apply set_eq. intros k. split; [|set_solver].
      intros Hk%Hkeys. rewrite Hnil in Hk. by apply elem_of_nil in Hk. }
    split; [done|].
    destruct Hr as [->|(_ & _ & Hk)].
    - simpl. by rewrite Hnil, Hm.
    - destruct Hk. rewrite <- Ht, Hnil. constructor. }
  rewrite E. simpl. split_and!.
  - exists (new ++ candle_calls l rs). split; [by rewrite Hc', Hc, app_assoc|].
    rewrite requested_app, Hreq, requested_candle_calls by done. simpl.
    intros Hl. rewrite Ht. by apply Hne.
  - exact Hempty.
  - intros c m w Hcl Hf. pose proof (load_data_no_trades s c m w Hcl Hf) as E'.
    rewrite E in E'. by injection E' as -> _.
  - intros c w Hcl Hf. exists (journals (vars s')). apply Hempty. rewrite Ht.
    destruct Hts as [?|(c' & w' & Hcl' & Hf')]; [done|]. congruence.
  - exact Hkeys.
  - intros ts js md Hret. destruct r as [[]|e]; simpl in Hret; [|done].
    injection Hret as <- <- <-. split_and!; try done.
    intros k Hk%elem_of_dom%Hkeys. by apply elem_of_symbols_of.
Qed.

(** C4, as the code has it: the live path asks candles for distinct symbols
    of the trades only, never twice for one symbol; when a Databento client
    is configured (and every trade carries its symbol) it asks once for each
    distinct symbol, whatever the replies are -- a request that raises is not
    repeated -- and each request spans the thirty days that end at the clock
    reading taken just before it.  Without a Databento client nothing is
    requested. *)
Theorem one_request_per_symbol_when_configured s :
  let r := load_data sv ord cl false s in
  let s' := snd r in
  let symbols := symbols_of (trades (vars s')) in
  (∃ before l readings,
     calls s' = calls s ++ before ++ candle_calls l readings
     ∧ requested before = []
     ∧ length readings = length l
     ∧ requested (before ++ candle_calls l readings) = l
     ∧ NoDup l
     ∧ (∀ x, x ∈ l → x ∈ symbols)
     ∧ (is_Some (databento_client cl) → Forall has_symbol (trades (vars s')) →
        l ≡ₚ elements (list_to_set symbols : gset string) ∧ ∃ v, fst r = Returned v)
     ∧ (databento_client cl = None → l = []))
  ∧ (∀ d symbol s0,
       ∃ s1, fetch_symbol sv d symbol s0 = (Returned tt, s1)
             ∧ calls s1 = calls s0
                          ++ candle_calls [symbol] [fst (datetime_now sv (world s0))]).
Proof.
  intros r s' symbols. subst r s' symbols. split.
  - destruct (load_data_live_spec s)
      as (s1 & new & n & r & s' & l & rs & E1 & Hc & Hreq & Hu & Hmd & Hts & Hstep & E).
    destruct Hstep as (Hr & Hlen & Hc' & Hnd & Hin & Hne & Hperm & Ht & Hj & Hdom & Herr).
    rewrite E. simpl. exists new, l, rs. rewrite Ht. split_and!; try done.
    + by rewrite Hc', Hc, app_assoc.
    + by rewrite requested_app, Hreq, requested_candle_calls.
    + intros Hd Hk. destruct (Hperm Hd Hk) as [-> Hp]. split; [done|]. simpl. eauto.
    + intros Hd. destruct l as [|x l]; [done|].
      destruct Hne as [[d Hd'] _]; [done|]. congruence.
  - intros d symbol s0.
    destruct (fetch_symbol_spec d symbol s0) as (s1 & E & Hc & _). eauto.
Qed.

End LoadData.

(** ** [main] and the sample-data box *)
Section Main.
Import App.
Context {World DataFrame : Type}.
Variable sv : services World DataFrame.
Variable ord : set_order.
Implicit Types s : state World DataFrame.

Lemma noted_nil s : noted s [] (vars s) = s.
Proof. destruct s. unfold noted. simpl. by rewrite app_nil_r. Qed.

(** [main] is [load_data] on the box's value, after the validation notices,
    followed by the routing. *)
Lemma main_eq cfg selected_page box s :
  main sv ord cfg selected_page box s
  = match load_data sv ord (init_clients cfg) (sample_data_chosen cfg box)
            (noted s (validation_notices cfg) (vars s)) with
    | (Returned (ts, js, md), s') =>
        (Returned (page_routing (init_clients cfg) selected_page ts js md), s')
    | (Raised e, s') => (Raised e, s')
    end.
Proof.
  unfold main, validation_notices, sample_data_chosen, any_api_configured, notify.
  unfold_m. destruct (validate cfg) as [|x missing]; simpl.
  - rewrite noted_nil. destruct (load_data _ _ _ _ s) as [[[[ts js] md]|e] s']; done.
  - unfold noted. rewrite <- app_assoc. simpl.
    destruct (load_data _ _ _ _ _) as [[[[ts js] md]|e] s']; done.
Qed.

Lemma box_default cfg :
  sample_data_chosen cfg None = true
  ↔ is_supabase_configured cfg = false ∧ is_topstep_configured cfg = false
    ∧ is_databento_configured cfg = false ∧ is_openai_configured cfg = false.
Proof.
  unfold sample_data_chosen, st_checkbox, any_api_configured. simpl.
  destruct (is_supabase_configured cfg), (is_topstep_configured cfg),
    (is_databento_configured cfg), (is_openai_configured cfg); simpl; naive_solver.
Qed.

(** The live path without a Databento client: it returns, with an empty
    market data, having asked for no candles and written the one line of the
    Supabase step. *)
Lemma load_data_without_databento (cl : clients) s :
  databento_client cl = None →
  ∃ ts js s' before n,
    load_data sv ord cl false s = (Returned (ts, js, ∅), s')
    ∧ calls s' = calls s ++ before ∧ requested before = []
    ∧ ui s' = ui s ++ [n].
Proof.
  intros Hd.
  destruct (load_supabase_spec sv cl (restarted s))
    as (s1 & new & n & E1 & Hc & Hr & Hu & Hm & _).
  rewrite (load_data_live sv ord cl s tt s1 (Returned tt) s1 E1)
    by (apply load_market_data_skipped; by left).
  simpl in *. rewrite Hm. eauto 10.
Qed.

(** C2, as the code has it: a configuration value that is missing leaves its
    client unbuilt, for each of the four services.  On the live path a
    missing Supabase client is announced by a warning and [load_data]
    returns empty trades, journals and market data; a missing Databento
    client skips the market data without a word: [load_data] returns with an
    empty market data, no candle request and no line for it.  Sample data is
    loaded when the box is ticked -- the generated trades and journals, after
    the notice, without a service call; only pandas on the local CSV can
    raise there -- and the box is ticked by default exactly when none of the
    four services is configured. *)
Theorem missing_configuration_is_reported (cl : clients) :
  (∀ cfg, (is_supabase_configured cfg = false →
           supabase_client (init_clients cfg) = None)
          ∧ (is_topstep_configured cfg = false →
             topstep_client (init_clients cfg) = None)
          ∧ (is_databento_configured cfg = false →
             databento_client (init_clients cfg) = None)
          ∧ (is_openai_configured cfg = false →
             nlp_processor (init_clients cfg) = None))
  ∧ (∀ s, supabase_client cl = None →
          load_data sv ord cl false s
          = (Returned ([], [], ∅),
             noted s [st_warning "Supabase client not configured. Cannot fetch live data."]
               initial_vars))
  ∧ (∀ s, databento_client cl = None → load_market_data sv ord cl s = (Returned tt, s))
  ∧ (∀ s, databento_client cl = None →
          ∃ ts js s' before n,
            load_data sv ord cl false s = (Returned (ts, js, ∅), s')
            ∧ calls s' = calls s ++ before ∧ requested before = []
            ∧ ui s' = ui s ++ [n])
  ∧ (∀ s,
       let ts := fst (generate_trades sv 100 (world s)) in
       let js := fst (generate_journals sv ts (snd (generate_trades sv 100 (world s)))) in
       let r := load_data sv ord cl true s in
       trades (vars (snd r)) = ts
       ∧ journals (vars (snd r)) = js
       ∧ calls (snd r) = calls s
       ∧ (∃ rest, ui (snd r) = ui s ++ st_info "Loading sample data..." :: rest)
       ∧ ((∃ md, fst r = Returned (ts, js, md)) ∨ ∃ m, fst r = Raised (PandasError m)))
  ∧ (∀ cfg,
       sample_data_chosen cfg None = true
       ↔ is_supabase_configured cfg = false ∧ is_topstep_configured cfg = false
         ∧ is_databento_configured cfg = false ∧ is_openai_configured cfg = false)
  ∧ (∀ cfg selected_page box s,
       main sv ord cfg selected_page box s
       = match load_data sv ord (init_clients cfg) (sample_data_chosen cfg box)
                 (noted s (validation_notices cfg) (vars s)) with
         | (Returned (ts, js, md), s') =>
             (Returned (page_routing (init_clients cfg) selected_page ts js md), s')
         | (Raised e, s') => (Raised e, s')
         end).
Proof.
  split_and!.
  - intros cfg. unfold init_clients. simpl. split_and!; by intros ->.
  - intros s H. by apply load_data_unconfigured.
  - intros s H. apply load_market_data_skipped. by left.
  - intros s H. by apply load_data_without_databento.
  - intros s ts js r. subst ts js r.
    destruct (load_sample_spec sv (restarted s))
      as (r & s' & rest & E & Hr & Ht & Hj & Hu & Hc & _).
    rewrite (load_data_sample sv ord cl s r s' E). simpl in *. split_and!; eauto.
    destruct Hr as [->|[m ->]]; simpl; [left|right; eauto].
    rewrite Ht, Hj. eauto.
  - apply box_default.
  - apply main_eq.
Qed.

(** C3, as the code has it: with the box unticked and a Supabase client whose
    two fetches answer, [load_data] returns the rows fetched (each trade
    carrying its symbol); with the box ticked it returns what the generator
    makes for 100 trades and the journals generated from them, after the
    notice "Loading sample data...", calling no service.  The box is ticked
    by default when no service is configured and unticked by default when
    Supabase is.  The warning belongs to the unticked box without Supabase
    client, where nothing is loaded. *)
Theorem data_loading_follows_the_box (cl : clients) :
  (∀ s c ts w js w',
     supabase_client cl = Some c →
     fetch_trades sv c (world s) = (Answers ts, w) →
     fetch_journals sv c w = (Answers js, w') →
     Forall has_symbol ts →
     ∃ md s', load_data sv ord cl false s = (Returned (ts, js, md), s')
              ∧ st_success "Data fetched from Supabase." ∈ ui s')
  ∧ (∀ s,
       let ts := fst (generate_trades sv 100 (world s)) in
       let js := fst (generate_journals sv ts (snd (generate_trades sv 100 (world s)))) in
       let r := load_data sv ord cl true s in
       trades (vars (snd r)) = ts
       ∧ journals (vars (snd r)) = js
       ∧ calls (snd r) = calls s
       ∧ (∃ rest, ui (snd r) = ui s ++ st_info "Loading sample data..." :: rest)
       ∧ ((∃ md, fst r = Returned (ts, js, md)) ∨ ∃ m, fst r = Raised (PandasError m)))
  ∧ (∀ cfg, any_api_configured cfg = false → sample_data_chosen cfg None = true)
  ∧ (∀ cfg, is_supabase_configured cfg = true → sample_data_chosen cfg None = false)
  ∧ (∀ cfg selected_page box s,
       main sv ord cfg selected_page box s
       = match load_data sv ord (init_clients cfg) (sample_data_chosen cfg box)
                 (noted s (validation_notices cfg) (vars s)) with
         | (Returned (ts, js, md), s') =>
             (Returned (page_routing (init_clients cfg) selected_page ts js md), s')
         | (Raised e, s') => (Raised e, s')
         end)
  ∧ (∀ s, supabase_client cl = None →
          load_data sv ord cl false s
          = (Returned ([], [], ∅),
             noted s [st_warning "Supabase client not configured. Cannot fetch live data."]
               initial_vars)).
Proof.
  split_and!.
  - intros s c ts w js w' Hc Ht Hj Hk.
    pose proof (load_supabase_fetched sv cl (restarted s) c ts w js w' Hc Ht Hj) as E1.
    destruct (load_market_data_spec sv ord cl
                {| world := w'; ui := ui s ++ [st_success "Data fetched from Supabase."];
                   calls := calls s ++ [FetchTrades; FetchJournals];
                   vars := {| trades := ts; journals := js; market_data := ∅ |} |})
      as (r & s' & l & rs & E2 & Hstep).
    destruct Hstep as (Hr & _ & _ & _ & _ & _ & _ & Htr & Hjo & _ & errs & Hu & _).
    rewrite (load_data_live sv ord cl s tt _ r s' E1 E2).
    destruct Hr as [->|(_ & _ & Hk')]; [|done].
    simpl in *. rewrite Htr, Hjo. eexists _, _. split; [done|].
    rewrite Hu. set_solver.
  - intros s ts js r. subst ts js r.
    destruct (load_sample_spec sv (restarted s))
      as (r & s' & rest & E & Hr & Ht & Hj & Hu & Hc & _).
    rewrite (load_data_sample sv ord cl s r s' E). simpl in *. split_and!; eauto.
    destruct Hr as [->|[m ->]]; simpl; [left|right; eauto].
    rewrite Ht, Hj. eauto.
  - intros cfg H. unfold sample_data_chosen. by rewrite H.
  - intros cfg H. unfold sample_data_chosen, any_api_configured. by rewrite H.
  - apply main_eq.
  - intros s H. by apply load_data_unconfigured.
Qed.

End Main.

(** ** Service calls and their exceptions *)
Section Containment.
Context {World DataFrame AuthWorld User Shown : Type}.
Variable sv : App.services World DataFrame.
Variable ord : set_order.
Variable cl : App.clients.
Variable auth : StreamlitApp.services AuthWorld User Shown.
Variable supabase : option StreamlitApp.Client.





End Containment.

(** ** The scripts in the small world *)

Lemma demo_rows_have_symbols : Forall App.has_symbol Demo.rows.
Proof. repeat (constructor; [by eexists|]). constructor. Qed.


Lemma missing_configuration_is_reported_witness :
  App.load_data Demo.market elements_order (App.init_clients Demo.only_openai) false
    Demo.start
  = (Returned ([], [], ∅),
     App.noted Demo.start
       [st_warning "Supabase client not configured. Cannot fetch live data."]
       App.initial_vars).
Proof.
  apply (proj1 (proj2
           (missing_configuration_is_reported Demo.market elements_order
              (App.init_clients Demo.only_openai)))).
  reflexivity.
Defined.

(** C2 as stated fails: with the OpenAI key alone configured the box is
    unticked by default, the missing Supabase client is reported (the warning
    of [load_data] after the two notices of [main]), and the page is drawn on
    empty lists, not on sample data. *)
Lemma silent_fallback_counterexample :
  let r := App.main Demo.market elements_order Demo.only_openai "Dashboard" None
             Demo.start in
  fst r = Returned (App.DashboardPage {| App.ta_trades := [] |} [] [])
  ∧ st_warning "Supabase client not configured. Cannot fetch live data."
    ∈ App.ui (snd r)
  ∧ length (App.ui (snd r)) = 3%nat
  ∧ length (fst (App.generate_trades Demo.market 100 0%nat)) = 100%nat.
Proof. vm_compute. split_and!; try done. set_solver. Qed.

Lemma data_loading_follows_the_box_witness :
  ∃ md s',
    App.load_data Demo.market elements_order
      (App.init_clients Demo.supabase_and_databento) false Demo.start
    = (Returned (Demo.rows, Demo.notes, md), s')
    ∧ st_success "Data fetched from Supabase." ∈ App.ui s'.
Proof.
  apply (proj1 (data_loading_follows_the_box Demo.market elements_order
                  (App.init_clients Demo.supabase_and_databento))
           Demo.start {| App.sb_url := Some "https://demo.supabase.co";
                         App.sb_key := Some "anon-key" |}
           Demo.rows 1%nat Demo.notes 2%nat);
    try reflexivity.
  exact demo_rows_have_symbols.
Defined.

(** C3 as stated fails: with nothing configured and the box unticked, the
    warning is shown and the page is drawn on empty lists, not on the 100
    generated trades. *)
Lemma sample_data_without_credentials_counterexample :
  let r := App.main Demo.market elements_order Demo.no_credentials "Dashboard"
             (Some false) Demo.start in
  fst r = Returned (App.DashboardPage {| App.ta_trades := [] |} [] [])
  ∧ st_warning "Supabase client not configured. Cannot fetch live data."
    ∈ App.ui (snd r)
  ∧ App.calls (snd r) = []
  ∧ length (fst (App.generate_trades Demo.market 100 0%nat)) = 100%nat.
Proof. vm_compute. split_and!; try done. set_solver. Qed.

Lemma one_request_per_symbol_when_configured_witness :
  ∃ l,
    App.requested
      (App.calls (snd (App.load_data Demo.market elements_order
                         (App.init_clients Demo.supabase_and_databento) false
                         Demo.start))) = l
    ∧ l ≡ₚ elements (list_to_set (App.symbols_of Demo.rows) : gset string).
Proof.
  destruct (proj1 (one_request_per_symbol_when_configured Demo.market elements_order
                     (App.init_clients Demo.supabase_and_databento) Demo.start))
    as (before & l & rs & Hc & Hb & Hl & Hreq & Hnd & Hin & Hperm & _).
  exists l. split.
  - rewrite Hc. exact Hreq.
  - apply Hperm; [by eexists|exact demo_rows_have_symbols].
Defined.

(** C4 as stated fails: with Supabase alone configured the trades carry two
    distinct symbols and no candles are requested at all. *)
Lemma one_request_per_symbol_counterexample :
  let r := App.load_data Demo.market elements_order
             (App.init_clients Demo.only_supabase) false Demo.start in
  fst r = Returned (Demo.rows, Demo.notes, ∅)
  ∧ App.symbols_of Demo.rows = ["MES"; "NQ"; "MES"]
  ∧ App.calls (snd r) = [App.FetchTrades; App.FetchJournals]
  ∧ App.requested (App.calls (snd r)) = [].
Proof. vm_compute. done. Qed.

Lemma market_data_only_for_fetched_trades_witness :
  let r := App.load_data Demo.market elements_order
             (App.init_clients Demo.only_databento) false Demo.start in
  App.market_data (App.vars (snd r)) = ∅
  ∧ fst r = Returned ([], App.journals (App.vars (snd r)), ∅).
Proof.
  apply (proj1 (proj2 (market_data_only_for_fetched_trades Demo.market elements_order
                         (App.init_clients Demo.only_databento) Demo.start))).
  reflexivity.
Defined.

(** ** The page of [streamlit_app.py], interaction by interaction *)
Section Page.
Import StreamlitApp.
Context {World User DataFrame : Type}.
Variable sv : services World User DataFrame.
Variable supabase : option Client.
Variable db_client : option Historical.
Implicit Types s : state World User DataFrame.

(** One run of the script body, without the callback. *)
Lemma run_without_callback i s :
  i ≠ ClickSignOut →
  run sv supabase db_client i s
  = ('(v, rerun) ← page sv supabase db_client i;
     if (rerun : bool)
     then '(v', _) ← page sv supabase db_client Idle; ret v'
     else ret v) s.
Proof. intros Hi. unfold run. unfold_m. by destruct i. Qed.

(** The page when an auth call raised: after the About line the message is
    shown unless empty; a sign-in without message reruns the script. *)
Lemma run_sign_in_raised c email password s m w :
  supabase = Some c →
  session_state s !! "user" = None →
  auth_sign_in_with_password sv c email password (world s) = (Throws m, w) →
  run sv supabase db_client (SubmitForm SignIn email password) s
  = (Returned AuthenticationView,
     {| world := w;
        ui := ui s ++ st_info about_text
                   :: (if String.eqb m "" then [st_info about_text]
                       else [st_error ("Sign-in failed: " +:+ m)]);
        calls := calls s ++ [AuthSignInWithPassword email password];
        session_state := session_state s; shown := shown s |}).
Proof.
  intros Hc E H. rewrite run_without_callback by done. unfold_m.
  rewrite page_signed_out by done. unfold authentication_form. unfold_m.
  rewrite (sign_in_raises sv supabase c email password (with_about s) m w Hc H).
  simpl. unfold notify. unfold_m.
  destruct (String.eqb m ""); simpl.
  - rewrite page_logged_out by done. unfold with_about. simpl.
    by rewrite <- app_assoc.
  - by rewrite <- app_assoc.
Qed.

Lemma run_sign_up_raised c email password s m w :
  supabase = Some c →
  session_state s !! "user" = None →
  auth_sign_up sv c email password (world s) = (Throws m, w) →
  run sv supabase db_client (SubmitForm SignUp email password) s
  = (Returned AuthenticationView,
     {| world := w;
        ui := ui s ++ st_info about_text
                   :: (if String.eqb m "" then []
                       else [st_error ("Sign-up failed: " +:+ m)]);
        calls := calls s ++ [AuthSignUp email password];
        session_state := session_state s; shown := shown s |}).
Proof.
  intros Hc E H. rewrite run_without_callback by done. unfold_m.
  rewrite page_signed_out by done. unfold authentication_form. unfold_m.
  rewrite (sign_up_raises sv supabase c email password (with_about s) m w Hc H).
  simpl. unfold notify. unfold_m.
  destruct (String.eqb m ""); simpl; [done|]. by rewrite <- app_assoc.
Qed.

Lemma run_unconfigured choice email password s :
  supabase = None →
  session_state s !! "user" = None →
  run sv supabase db_client (SubmitForm choice email password) s
  = (Returned AuthenticationView,
     with_session s (session_state s)
       [ st_info about_text;
         st_error "Supabase client is not initialized. Check your API keys.";
         st_error (match choice with
                   | SignUp => "Sign-up failed: Supabase client not initialized."
                   | SignIn => "Sign-in failed: Supabase client not initialized."
                   end) ]).
Proof.
  intros Hc E. rewrite run_without_callback by done. unfold_m.
  rewrite page_signed_out by done. unfold authentication_form. unfold_m.
  destruct choice.
  - rewrite sign_in_uninitialized by done. simpl. unfold notify, with_session. unfold_m.
    simpl. by rewrite <- !app_assoc.
  - unfold sign_up. rewrite Hc. unfold notify, with_session. unfold_m.
    simpl. by rewrite <- !app_assoc.
Qed.

(** X2: without a Supabase client a form submitted on the signed-out page
    calls no service: after the line of the About tab the script writes the
    initialization error, then the failure line of the form; nobody is
    signed in and the authentication view is drawn again. *)
Theorem submit_without_client_reports_and_stays choice email password s :
  supabase = None →
  session_state s !! "user" = None →
  let r := run sv supabase db_client (SubmitForm choice email password) s in
  fst r = Returned AuthenticationView
  ∧ ui (snd r)
    = ui s ++ [ st_info about_text;
                st_error "Supabase client is not initialized. Check your API keys.";
                st_error (match choice with
                          | SignUp => "Sign-up failed: Supabase client not initialized."
                          | SignIn => "Sign-in failed: Supabase client not initialized."
                          end) ]
  ∧ calls (snd r) = calls s
  ∧ session_state (snd r) !! "user" = None.
Proof.
  intros Hc E r. subst r. by rewrite run_unconfigured.
Qed.

(** The exact effect of the three auth functions and of the dashboard. *)
Lemma sign_up_effect email password s :
  ∃ r s', sign_up sv supabase email password s = (Returned r, s')
    ∧ session_state s' = session_state s
    ∧ calls s' = calls s ++ (if bool_decide (is_Some supabase)
                             then [AuthSignUp email password] else [])
    ∧ shown s' = shown s.
Proof.
  unfold sign_up, service, notify. unfold_m.
  destruct supabase as [c|]; simpl.
  - destruct (auth_sign_up sv c email password (world s)) as [[res|m] w];
      simpl; eauto 10.
  - eexists _, _. split_and!; try reflexivity. simpl. by rewrite app_nil_r.
Qed.

Lemma sign_in_effect email password s :
  ∃ r s', sign_in sv supabase email password s = (Returned r, s')
    ∧ ((r.2 = None ∧ ∃ u, session_state s' = <["user" := u]> (session_state s))
       ∨ (is_Some r.2 ∧ session_state s' = session_state s))
    ∧ calls s' = calls s ++ (if bool_decide (is_Some supabase)
                             then [AuthSignInWithPassword email password] else [])
    ∧ shown s' = shown s.
Proof.
  unfold sign_in, service, set_session, notify. unfold_m.
  destruct supabase as [c|]; simpl.
  - destruct (auth_sign_in_with_password sv c email password (world s))
      as [[res|m] w]; simpl; eauto 12.
  - eexists _, _. split_and!; try reflexivity; [eauto|]. simpl. by rewrite app_nil_r.
Qed.

Lemma dashboard_view_effect i s :
  ∃ s', dashboard_view sv db_client i s = (Returned tt, s')
    ∧ session_state s' = session_state s
    ∧ calls s' = calls s ++ (match i with
                             | ClickFetchSampleData =>
                                 if bool_decide (is_Some db_client)
                                 then [TimeseriesGetRange] else []
                             | _ => []
                             end).
Proof.
  unfold dashboard_view, service, notify, st_dataframe. unfold_m.
  destruct db_client as [d|]; simpl.
  - destruct i; simpl; try (eexists; split_and!; try reflexivity; simpl;
                            by rewrite app_nil_r).
    destruct (timeseries_get_range sv d (world s)) as [[df|m] w]; simpl; eauto.
  - eexists. split_and!; try reflexivity. simpl. destruct i; by rewrite app_nil_r.
Qed.

Ltac finish_page :=
  try done;
  try (split; (done || by intros [? [=]]));
  try (intros ? ?; by rewrite lookup_insert_ne);
  try (simpl; eassumption).

(** One pass over the page: the view is that of the session [s] it started
    on; the session keeps every key but ['user']; the calls are the widget's;
    a pass that ends in [st.rerun()] has signed the user in. *)
Lemma page_effect i s :
  ∃ v b s', page sv supabase db_client i s = (Returned (v, b), s')
    ∧ (v = DashboardView ↔ is_Some (session_state s !! "user"))
    ∧ (∀ k, k ≠ "user" → session_state s' !! k = session_state s !! k)
    ∧ calls s' = calls s ++ widget_calls supabase db_client s i
    ∧ (b = false → v = DashboardView ↔ is_Some (session_state s' !! "user"))
    ∧ (i = Idle → b = false ∧ session_state s' = session_state s).
Proof.
  destruct (session_state s !! "user") as [u|] eqn:E.
  - unfold page, in_session, widget_calls. unfold_m. rewrite E. simpl.
    destruct (dashboard_view_effect i s) as (s' & -> & Hs & Hc).
    exists DashboardView, false, s'. rewrite Hs, E. split_and!; try done.
    rewrite Hc. by destruct i as [|[|] ? ?| |].
  - rewrite page_signed_out by done. unfold authentication_form, widget_calls.
    unfold_m. rewrite E.
    destruct i as [|[|] e p| |]; simpl.
    + exists AuthenticationView, false, (with_about s). simpl.
      rewrite E, app_nil_r. split_and!; finish_page.
    + destruct (sign_in_effect e p (with_about s)) as ([x err] & s' & -> & Hs & Hc & _).
      simpl in Hs, Hc. unfold notify. unfold_m.
      destruct Hs as [[-> [x' Hs]]|[[m ->] Hs]]; simpl.
      * exists AuthenticationView, true, s'. rewrite Hs. split_and!; finish_page.
      * destruct (negb (String.eqb m "")); simpl.
        -- eexists _, _, _. split; [reflexivity|]. simpl. rewrite Hs, E.
           split_and!; finish_page.
        -- exists AuthenticationView, true, s'. rewrite Hs. split_and!; finish_page.
    + destruct (sign_up_effect e p (with_about s)) as ([x err] & s' & -> & Hs & Hc & _).
      simpl in Hs, Hc. unfold notify. unfold_m.
      destruct (truthy err); simpl;
        (eexists _, _, _; split; [reflexivity|]); simpl; rewrite Hs, E;
        split_and!; finish_page.
    + exists AuthenticationView, false, (with_about s). simpl.
      rewrite E, app_nil_r. split_and!; finish_page.
    + exists AuthenticationView, false, (with_about s). simpl.
      rewrite E, app_nil_r. split_and!; finish_page.
Qed.

Lemma run_effect i s :
  ∃ v s', run sv supabase db_client i s = (Returned v, s')
    ∧ (v = DashboardView ↔ is_Some (session_state s' !! "user"))
    ∧ (∀ k, k ≠ "user" → session_state s' !! k = session_state s !! k)
    ∧ calls s' = calls s ++ widget_calls supabase db_client s i.
Proof.
  assert (∀ s0, (∀ k, k ≠ "user" → session_state s0 !! k = session_state s !! k) →
                calls s0 ++ widget_calls supabase db_client s0 i
                = calls s ++ widget_calls supabase db_client s i →
    ∃ v s',
      ('(v, rerun) ← page sv supabase db_client i;
       if (rerun : bool)
       then '(v', _) ← page sv supabase db_client Idle; ret v'
       else ret v) s0 = (Returned v, s')
      ∧ (v = DashboardView ↔ is_Some (session_state s' !! "user"))
      ∧ (∀ k, k ≠ "user" → session_state s' !! k = session_state s !! k)
      ∧ calls s' = calls s ++ widget_calls supabase db_client s i) as Body.
  { intros s0 Hk0 Hc0. unfold_m.
    destruct (page_effect i s0) as (v & b & s1 & -> & Hv & Hk & Hc & Hb & _).
    destruct b.
    - destruct (page_effect Idle s1) as (v' & b' & s2 & -> & Hv' & Hk' & Hc' & _ & Hi).
      destruct (Hi eq_refl) as [_ Hs2]. exists v', s2. split_and!; try done.
      + by rewrite Hs2.
      + intros k Hne. by rewrite Hk', Hk, Hk0.
      + rewrite Hc', Hc. simpl. by rewrite app_nil_r.
    - exists v, s1. split_and!; try done.
      + by apply Hb.
      + intros k Hne. by rewrite Hk, Hk0.
      + by rewrite Hc. }
  unfold run. unfold mbind at 1, M_bind at 1, bind at 1.
  destruct i as [|c e p| |]; try (apply Body; done).
  rewrite sign_out_eq. apply Body.
  - intros k Hk. simpl. by rewrite lookup_delete_ne.
  - simpl. by rewrite !app_nil_r.
Qed.

Lemma run_fetch_answered d u s df w :
  db_client = Some d →
  session_state s !! "user" = Some u →
  timeseries_get_range sv d (world s) = (Answers df, w) →
  run sv supabase db_client ClickFetchSampleData s
  = (Returned DashboardView,
     {| world := w; ui := ui s ++ [st_success "Successfully fetched data!"];
        calls := calls s ++ [TimeseriesGetRange];
        session_state := session_state s; shown := shown s ++ [df] |}).
Proof.
  intros Hd E H. unfold run, page, in_session, dashboard_view, service, notify,
    st_dataframe. unfold_m. simpl. rewrite E, Hd. simpl. rewrite H. reflexivity.
Qed.

Lemma run_fetch_raised d u s m w :
  db_client = Some d →
  session_state s !! "user" = Some u →
  timeseries_get_range sv d (world s) = (Throws m, w) →
  run sv supabase db_client ClickFetchSampleData s
  = (Returned DashboardView,
     {| world := w;
        ui := ui s ++ [st_error ("Failed to fetch data from Databento: " +:+ m)];
        calls := calls s ++ [TimeseriesGetRange];
        session_state := session_state s; shown := shown s |}).
Proof.
  intros Hd E H. unfold run, page, in_session, dashboard_view, service, notify,
    st_dataframe. unfold_m. simpl. rewrite E, Hd. simpl. rewrite H. reflexivity.
Qed.

Lemma run_dashboard_without_databento i u s :
  db_client = None →
  session_state s !! "user" = Some u →
  i ≠ ClickSignOut →
  run sv supabase db_client i s
  = (Returned DashboardView,
     with_session s (session_state s)
       [st_warning "Databento client is not initialized. Please check your API key."]).
Proof.
  intros Hd E Hi. unfold run, page, in_session, dashboard_view, notify. unfold_m.
  destruct i; try done; simpl; rewrite E, Hd; reflexivity.
Qed.

Lemma sign_in_then_sign_out c email password s res w :
  supabase = Some c →
  auth_sign_in_with_password sv c email password (world s) = (Answers res, w) →
  session_state (snd (sign_out (snd (sign_in sv supabase email password s))))
  = delete "user" (session_state s).
Proof.
  intros Hc H. rewrite (sign_in_ok sv supabase c email password s res w Hc H).
  rewrite sign_out_eq. simpl. apply delete_insert_eq.
Qed.

(** X3: every interaction returns, and the view it leaves on the screen is
    the one of the session it leaves: the dashboard exactly when ['user'] is
    in the session state. *)
Theorem view_follows_session i s :
  ∃ v s', run sv supabase db_client i s = (Returned v, s')
          ∧ (v = DashboardView ↔ is_Some (session_state s' !! "user")).
Proof.
  destruct (run_effect i s) as (v & s' & E & Hv & _). eauto.
Qed.

(** X4: when the auth service raises on a form submitted from the signed-out
    page, the script writes, after the line of the About tab, "Sign-in
    failed: ..." (or "Sign-up failed: ...") with the message, unless the
    message is empty: then it writes no failure line, and for a sign-in it
    reruns, which writes the About line once more.  One auth call was made,
    nobody is signed in and the authentication view stays. *)
Theorem auth_failure_shown_unless_empty c email password s m w :
  supabase = Some c →
  session_state s !! "user" = None →
  (auth_sign_in_with_password sv c email password (world s) = (Throws m, w) →
   let r := run sv supabase db_client (SubmitForm SignIn email password) s in
   fst r = Returned AuthenticationView
   ∧ ui (snd r) = ui s ++ st_info about_text
                       :: (if String.eqb m "" then [st_info about_text]
                           else [st_error ("Sign-in failed: " +:+ m)])
   ∧ calls (snd r) = calls s ++ [AuthSignInWithPassword email password]
   ∧ session_state (snd r) !! "user" = None)
  ∧ (auth_sign_up sv c email password (world s) = (Throws m, w) →
     let r := run sv supabase db_client (SubmitForm SignUp email password) s in
     fst r = Returned AuthenticationView
     ∧ ui (snd r) = ui s ++ st_info about_text
                         :: (if String.eqb m "" then []
                             else [st_error ("Sign-up failed: " +:+ m)])
     ∧ calls (snd r) = calls s ++ [AuthSignUp email password]
     ∧ session_state (snd r) !! "user" = None).
Proof.
  intros Hc E. split; intros H r; subst r.
  - by rewrite (run_sign_in_raised c email password s m w).
  - by rewrite (run_sign_up_raised c email password s m w).
Qed.

(** X6: an interaction makes the service call of its widget, once, with the
    email and password as typed, and no other: nothing for a widget the page
    does not show or whose client is missing, nothing on [st.rerun()]. *)
Theorem one_call_per_interaction i s :
  calls (snd (run sv supabase db_client i s))
  = calls s ++ widget_calls supabase db_client s i
  ∧ (length (widget_calls supabase db_client s i) ≤ 1)%nat.
Proof.
  destruct (run_effect i s) as (v & s' & -> & _ & _ & Hc). split; [done|].
  unfold widget_calls. destruct i as [|[|] ? ?| |]; simpl; repeat case_match; simpl; lia.
Qed.

(** X7: the "Fetch Sample Data" button of the dashboard.  With a Databento
    client, an answer is shown as a table after the success line; an
    exception gives the line "Failed to fetch data from Databento: ..." and
    no table.  Without the client every run of the dashboard writes the
    warning and calls nothing.  The session is kept in all three cases. *)
Theorem fetch_sample_data_button u s :
  session_state s !! "user" = Some u →
  (∀ d df w,
     db_client = Some d →
     timeseries_get_range sv d (world s) = (Answers df, w) →
     run sv supabase db_client ClickFetchSampleData s
     = (Returned DashboardView,
        {| world := w; ui := ui s ++ [st_success "Successfully fetched data!"];
           calls := calls s ++ [TimeseriesGetRange];
           session_state := session_state s; shown := shown s ++ [df] |}))
  ∧ (∀ d m w,
       db_client = Some d →
       timeseries_get_range sv d (world s) = (Throws m, w) →
       run sv supabase db_client ClickFetchSampleData s
       = (Returned DashboardView,
          {| world := w;
             ui := ui s ++ [st_error ("Failed to fetch data from Databento: " +:+ m)];
             calls := calls s ++ [TimeseriesGetRange];
             session_state := session_state s; shown := shown s |}))
  ∧ (∀ i,
       db_client = None →
       i ≠ ClickSignOut →
       run sv supabase db_client i s
       = (Returned DashboardView,
          with_session s (session_state s)
            [st_warning
               "Databento client is not initialized. Please check your API key."])).
Proof.
  intros E. split_and!.
  - intros d df w Hd H. by apply run_fetch_answered with d u.
  - intros d m w Hd H. by apply run_fetch_raised with d u.
  - intros i Hd Hi. by apply run_dashboard_without_databento with u.
Qed.

(** X8: signing in and then out gives back the session state there was
    before, when nobody was signed in. *)
Theorem sign_in_then_sign_out_restores_session c email password s res w :
  supabase = Some c →
  auth_sign_in_with_password sv c email password (world s) = (Answers res, w) →
  session_state s !! "user" = None →
  session_state (snd (sign_in sv supabase email password s)) !! "user"
  = Some (user res)
  ∧ session_state (snd (sign_out (snd (sign_in sv supabase email password s))))
    = session_state s.
Proof.
  intros Hc H E. split.
  - rewrite (sign_in_ok sv supabase c email password s res w Hc H). simpl.
    apply lookup_insert_eq.
  - rewrite (sign_in_then_sign_out c email password s res w Hc H).
    by apply delete_id.
Qed.

End Page.

(** ** More on [load_data] and [main] *)
Section LoadDataCases.
Import App.
Context {World DataFrame : Type}.
Variable sv : services World DataFrame.
Variable ord : set_order.
Variable cl : clients.
Implicit Types s : state World DataFrame.

Ltac unfold_app :=
  unfold notify, set_trades, set_journals, set_market_data, set_vars, in_process,
    service, pandas.

(** The Supabase step when the trades arrived, whatever the journals do. *)
Lemma load_supabase_trades s c ts w :
  supabase_client cl = Some c →
  fetch_trades sv c (world s) = (Answers ts, w) →
  ∃ s1 n,
    load_supabase sv cl s = (Returned tt, s1)
    ∧ trades (vars s1) = ts
    ∧ market_data (vars s1) = market_data (vars s)
    ∧ calls s1 = calls s ++ [FetchTrades; FetchJournals]
    ∧ ui s1 = ui s ++ [n].
Proof.
  intros Hc Ht. destruct (fetch_journals sv c w) as [[js|m] w'] eqn:Hj.
  - rewrite (load_supabase_fetched sv cl s c ts w js w') by done. eauto 10.
  - rewrite (load_supabase_no_journals sv cl s c ts w m w') by done. eauto 10.
Qed.

(** X9: with a Databento client, a fetched trade row without ['symbol']
    makes the live path raise [KeyError] out of [load_data]: the trades and
    journals were fetched, no candles were requested, nothing is returned. *)
Theorem row_without_symbol_raises_key_error s c d ts w :
  supabase_client cl = Some c →
  databento_client cl = Some d →
  fetch_trades sv c (world s) = (Answers ts, w) →
  ¬ Forall has_symbol ts →
  ∃ s', load_data sv ord cl false s = (Raised (KeyError "symbol"), s')
        ∧ calls s' = calls s ++ [FetchTrades; FetchJournals]
        ∧ market_data (vars s') = ∅.
Proof.
  intros Hc Hd Ht Hk.
  destruct (load_supabase_trades (restarted s) c ts w Hc Ht)
    as (s1 & n & E1 & Htr & Hmd & Hcalls & Hu).
  assert (ts ≠ []) as Hne by (intros ->; apply Hk; constructor).
  rewrite (load_data_live sv ord cl s tt s1 (Raised (KeyError "symbol")) s1 E1).
  - exists s1. split_and!; done.
  - apply load_market_data_key_error with d; (done || by rewrite Htr).
Qed.

(** X10: the market data of the sample path.  Without the CSV the generated
    rows are returned with an empty dictionary and a warning; an unreadable
    CSV, or one whose timestamps do not convert, makes [load_data] raise,
    there being no [try] around pandas; otherwise the dictionary holds the
    converted table under ["MES"] and nothing else. *)
Theorem sample_market_data_cases s :
  let g := generate_trades sv 100 (world s) in
  let j := generate_journals sv (fst g) (snd g) in
  let p := path_exists sv sample_market_data_path (snd j) in
  let r := load_data sv ord cl true s in
  (fst p = false →
   fst r = Returned (fst g, fst j, ∅)
   ∧ ui (snd r) = ui s ++ [ st_info "Loading sample data...";
                            st_warning ("Sample market data not found at "
                                        +:+ sample_market_data_path
                                        +:+ ". Please run sample_data_generator.py.") ])
  ∧ (∀ m w, fst p = true →
       read_csv sv sample_market_data_path (snd p) = (Throws m, w) →
       fst r = Raised (PandasError m))
  ∧ (∀ df w m, fst p = true →
       read_csv sv sample_market_data_path (snd p) = (Answers df, w) →
       to_datetime_timestamp sv df = Throws m →
       fst r = Raised (PandasError m))
  ∧ (∀ df w df', fst p = true →
       read_csv sv sample_market_data_path (snd p) = (Answers df, w) →
       to_datetime_timestamp sv df = Answers df' →
       fst r = Returned (fst g, fst j, {[ "MES" := df' ]})
       ∧ ui (snd r) = ui s ++ [st_info "Loading sample data..."]).
Proof.
  intros g j p r. subst g j p r.
  unfold load_data, load_sample. unfold_app. unfold_m. simpl.
  destruct (generate_trades sv 100 (world s)) as [ts w1]. simpl.
  destruct (generate_journals sv ts w1) as [js w2]. simpl.
  destruct (path_exists sv sample_market_data_path w2) as [found w3]. simpl.
  split_and!.
  - intros ->. simpl. split; [done|]. by rewrite <- app_assoc.
  - intros m w -> H. simpl in *. rewrite H. reflexivity.
  - intros df w m -> H H'. simpl in *. rewrite H. simpl. rewrite H'. reflexivity.
  - intros df w df' -> H H'. simpl in *. rewrite H. simpl. rewrite H'. simpl.
    split; [|done]. by rewrite insert_insert_eq.
Qed.

(** The loop against a vendor whose answer depends on the symbol alone. *)
Lemma for_each_fetch_symbol_vendor d (vendor : string → reply DataFrame) l :
  (∀ symbol a b w, fst (get_candlestick_data sv d symbol a b w) = vendor symbol) →
  ∀ s,
    let s' := snd (for_each l (fetch_symbol sv d) s) in
    (∀ k, market_data (vars s') !! k
          = if decide (k ∈ l)
            then match vendor k with
                 | Answers df => Some df
                 | Throws _ => market_data (vars s) !! k
                 end
            else market_data (vars s) !! k)
    ∧ (∀ n, n ∈ ui s → n ∈ ui s')
    ∧ (∀ k m, k ∈ l → vendor k = Throws m →
         st_error ("Error fetching market data for " +:+ k
                   +:+ " from Databento: " +:+ m) ∈ ui s').
Proof.
  intros Hv. induction l as [|x l IH]; intros s; simpl.
  - split_and!; try done. intros k m Hk. by apply elem_of_nil in Hk.
  - unfold_m.
    destruct (datetime_now sv (world s)) as [e w] eqn:Hn.
    destruct (get_candlestick_data sv d x (e - thirty_days) e w) as [r w'] eqn:Hg.
    pose proof (Hv x (e - thirty_days) e w) as Hx. rewrite Hg in Hx. simpl in Hx.
    destruct r as [df|m].
    + rewrite (fetch_symbol_answered sv d x s e w df w') by done.
      match goal with |- context [for_each l _ ?s1] =>
        destruct (IH s1) as (Hmd & Hui & Herr) end.
      simpl in *. split_and!.
      * intros k. rewrite Hmd. destruct (decide (k = x)) as [->|Hne].
        -- rewrite <- Hx, lookup_insert_eq.
           rewrite (decide_True (P := x ∈ x :: l)) by set_solver.
           by destruct (decide (x ∈ l)).
        -- rewrite lookup_insert_ne by done.
           destruct (decide (k ∈ l)).
           ++ by rewrite (decide_True (P := k ∈ x :: l)) by set_solver.
           ++ by rewrite (decide_False (P := k ∈ x :: l)) by set_solver.
      * intros n Hin. by apply Hui.
      * intros k m [->|Hk]%elem_of_cons Hm; [congruence|]. by apply Herr.
    + rewrite (fetch_symbol_raised sv d x s e w m w') by done.
      match goal with |- context [for_each l _ ?s1] =>
        destruct (IH s1) as (Hmd & Hui & Herr) end.
      simpl in *. split_and!.
      * intros k. rewrite Hmd. destruct (decide (k = x)) as [->|Hne].
        -- rewrite <- Hx.
           rewrite (decide_True (P := x ∈ x :: l)) by set_solver.
           by destruct (decide (x ∈ l)).
        -- destruct (decide (k ∈ l)).
           ++ by rewrite (decide_True (P := k ∈ x :: l)) by set_solver.
           ++ by rewrite (decide_False (P := k ∈ x :: l)) by set_solver.
      * intros n Hin. apply Hui. set_solver.
      * intros k m' [->|Hk]%elem_of_cons Hm; [|by apply Herr].
        apply Hui. rewrite <- Hx in Hm. injection Hm as ->. set_solver.
Qed.

(** X11: against a vendor whose answer depends on the symbol alone, the
    market data of the live path has an entry for a symbol exactly when a
    trade carries the symbol and the vendor answers for it, and the entry is
    that answer; each traded symbol the vendor refuses has its error line. *)
Theorem market_data_of_a_stateless_vendor d (vendor : string → reply DataFrame) s :
  databento_client cl = Some d →
  (∀ symbol a b w, fst (get_candlestick_data sv d symbol a b w) = vendor symbol) →
  let s' := snd (load_data sv ord cl false s) in
  Forall has_symbol (trades (vars s')) →
  (∀ k df, market_data (vars s') !! k = Some df
           ↔ k ∈ symbols_of (trades (vars s')) ∧ vendor k = Answers df)
  ∧ (∀ k m, k ∈ symbols_of (trades (vars s')) → vendor k = Throws m →
       st_error ("Error fetching market data for " +:+ k
                 +:+ " from Databento: " +:+ m) ∈ ui s')
  ∧ fst (load_data sv ord cl false s)
    = Returned (trades (vars s'), journals (vars s'), market_data (vars s')).
Proof.
  intros Hd Hv s'. subst s'.
  destruct (load_supabase_spec sv cl (restarted s))
    as (s1 & new & n & E1 & _ & _ & _ & Hmd & _).
  simpl in Hmd.
  destruct (decide (trades (vars s1) = [])) as [Hnil|Hne].
  - rewrite (load_data_live sv ord cl s tt s1 (Returned tt) s1 E1)
      by (apply load_market_data_skipped; by right).
    simpl. rewrite Hnil, Hmd. intros _. split_and!; try done.
    + intros k df. rewrite lookup_empty. split; [done|].
      intros [Hk _]. by apply elem_of_nil in Hk.
    + intros k m Hk. by apply elem_of_nil in Hk.
  - destruct (decide (Forall has_symbol (trades (vars s1)))) as [Hk|Hk].
    + pose proof (load_market_data_fetches sv ord cl s1 d Hd Hne Hk) as E2.
      destruct (for_each_fetch_symbol_spec sv d
                  (list_set ord (symbols_of (trades (vars s1)))) s1)
        as (s2 & rs & E3 & _ & _ & Ht & Hj & _).
      destruct (for_each_fetch_symbol_vendor d vendor
                  (list_set ord (symbols_of (trades (vars s1)))) Hv s1)
        as (Hm & _ & Herr).
      rewrite E3 in Hm, Herr. simpl in Hm, Herr. rewrite E3 in E2.
      rewrite (load_data_live sv ord cl s tt s1 (Returned tt) s2 E1 E2).
      simpl. rewrite Ht. intros _. split_and!; try done.
      * intros k df. rewrite Hm, Hmd, lookup_empty.
        destruct (decide (k ∈ list_set ord (symbols_of (trades (vars s1)))))
          as [Hin|Hin]; rewrite elem_of_list_set in Hin.
        -- destruct (vendor k); split; naive_solver.
        -- split; [done|]. by intros [? _].
      * intros k m Hin. apply Herr. by apply elem_of_list_set.
    + rewrite (load_data_live sv ord cl s tt s1 (Raised (KeyError "symbol")) s1 E1)
        by (by apply load_market_data_key_error with d).
      simpl. intros Hk'. done.
Qed.


(** X14: the live path asks Supabase before any candles: nothing without a
    client, the trades once, then the journals once and only when the trades
    arrived; a failed trades fetch is followed by no other call. *)
Theorem supabase_asked_in_order s :
  ∃ l readings,
    calls (snd (load_data sv ord cl false s))
    = calls s
      ++ match supabase_client cl with
         | None => []
         | Some c =>
             match fst (fetch_trades sv c (world s)) with
             | Answers _ => [FetchTrades; FetchJournals]
             | Throws _ => [FetchTrades]
             end
         end
      ++ candle_calls l readings.
Proof.
  destruct (supabase_client cl) as [c|] eqn:Hc.
  - destruct (fetch_trades sv c (world s)) as [[ts|m] w] eqn:Ht; simpl.
    + destruct (load_supabase_trades (restarted s) c ts w Hc Ht)
        as (s1 & n & E1 & _ & _ & Hcalls & _).
      destruct (load_market_data_spec sv ord cl s1) as (r & s' & l & rs & E2 & Hstep).
      rewrite (load_data_live sv ord cl s tt s1 r s' E1 E2). simpl.
      destruct Hstep as (_ & _ & -> & _). exists l, rs. by rewrite Hcalls, <- app_assoc.
    + rewrite (load_data_no_trades sv ord cl s c m w Hc Ht). by exists [], [].
  - rewrite load_data_unconfigured by done. exists [], []. simpl. by rewrite app_nil_r.
Qed.

End LoadDataCases.

Section MainCases.
Import App.
Context {World DataFrame : Type}.
Variable sv : services World DataFrame.
Variable ord : set_order.
Implicit Types s : state World DataFrame.


(** X13: with the sample-data box ticked [main] calls no service, whatever
    is configured; after the validation notices it writes "Loading sample
    data...". *)
Theorem sample_box_calls_no_service cfg selected_page box s :
  sample_data_chosen cfg box = true →
  calls (snd (main sv ord cfg selected_page box s)) = calls s
  ∧ ∃ rest, ui (snd (main sv ord cfg selected_page box s))
            = ui s ++ validation_notices cfg
              ++ st_info "Loading sample data..." :: rest.
Proof.
  intros Hbox. rewrite main_eq, Hbox.
  destruct (load_sample_spec sv (restarted (noted s (validation_notices cfg) (vars s))))
    as (r & s' & rest & E & _ & _ & _ & Hu & Hc & _).
  rewrite (load_data_sample sv ord (init_clients cfg) _ r s' E).
  simpl in Hu, Hc.
  assert (calls s' = calls s ∧ ui s' = ui s ++ validation_notices cfg
            ++ st_info "Loading sample data..." :: rest) as [? ?].
  { split; [done|]. by rewrite Hu, <- app_assoc. }
  destruct r as [[]|ex]; simpl; eauto.
Qed.

End MainCases.

(** ** The secrets file *)
Section Secrets.

(** X1: a secrets file that lacks one of the three keys makes the script
    raise [KeyError] for the first key missing, in the order URL, key,
    Databento key: the [except FileNotFoundError] does not handle it and the
    environment is not read. *)
Theorem secrets_file_missing_key_raises {S} (table environ : row) (s : S) :
  (table !! "SUPABASE_URL" = None →
   StreamlitApp.read_settings (Some table) environ s
   = (Raised (KeyError "SUPABASE_URL"), s))
  ∧ (is_Some (table !! "SUPABASE_URL") →
     table !! "SUPABASE_KEY" = None →
     StreamlitApp.read_settings (Some table) environ s
     = (Raised (KeyError "SUPABASE_KEY"), s))
  ∧ (is_Some (table !! "SUPABASE_URL") →
     is_Some (table !! "SUPABASE_KEY") →
     table !! "DATABENTO_API_KEY" = None →
     StreamlitApp.read_settings (Some table) environ s
     = (Raised (KeyError "DATABENTO_API_KEY"), s)).
Proof.
  unfold StreamlitApp.read_settings, StreamlitApp.try_except_file_not_found,
    StreamlitApp.st_secrets, subscript.
  unfold_m. split_and!.
  - intros ->. reflexivity.
  - intros [u ->] ->. reflexivity.
  - intros [u ->] [k ->] ->. reflexivity.
Qed.

End Secrets.

(** ** More runs in the small world *)

Lemma secrets_file_missing_key_raises_witness :
  StreamlitApp.read_settings (Some Demo.partial_secrets) Demo.environ tt
  = (Raised (KeyError "DATABENTO_API_KEY"), tt).
Proof.
  apply (proj2 (proj2 (secrets_file_missing_key_raises
                         Demo.partial_secrets Demo.environ tt)));
    (by eexists) || reflexivity.
Defined.

Lemma submit_without_client_reports_and_stays_witness :
  StreamlitApp.ui
    (snd (StreamlitApp.run Demo.auth None None
            (StreamlitApp.SubmitForm StreamlitApp.SignIn "ann@example.org"
               "correct horse")
            Demo.fresh))
  = [ st_info StreamlitApp.about_text;
      st_error "Supabase client is not initialized. Check your API keys.";
      st_error "Sign-in failed: Supabase client not initialized." ].
Proof.
  apply (submit_without_client_reports_and_stays Demo.auth None None
           StreamlitApp.SignIn "ann@example.org" "correct horse" Demo.fresh
           eq_refl eq_refl).
Defined.

Lemma auth_failure_shown_unless_empty_witness :
  StreamlitApp.ui
    (snd (StreamlitApp.run Demo.mute_auth (Some Demo.client) None
            (StreamlitApp.SubmitForm StreamlitApp.SignIn "ann@example.org"
               "correct horse")
            Demo.fresh))
  = [ st_info StreamlitApp.about_text; st_info StreamlitApp.about_text ].
Proof.
  apply (proj1 (auth_failure_shown_unless_empty Demo.mute_auth (Some Demo.client) None
                  Demo.client "ann@example.org" "correct horse" Demo.fresh
                  "" 1%nat eq_refl eq_refl) eq_refl).
Defined.

Lemma fetch_sample_data_button_witness :
  StreamlitApp.run Demo.auth (Some Demo.client) (Some Demo.historical)
    StreamlitApp.ClickFetchSampleData Demo.signed_in
  = (Returned StreamlitApp.DashboardView,
     {| StreamlitApp.world := 1%nat;
        StreamlitApp.ui := [st_success "Successfully fetched data!"];
        StreamlitApp.calls := [StreamlitApp.TimeseriesGetRange];
        StreamlitApp.session_state := StreamlitApp.session_state Demo.signed_in;
        StreamlitApp.shown := [tt] |}).
Proof.
  apply (proj1 (fetch_sample_data_button Demo.auth (Some Demo.client)
                  (Some Demo.historical) "ann@example.org" Demo.signed_in eq_refl)
           Demo.historical tt 1%nat);
    reflexivity.
Defined.

Lemma sign_in_then_sign_out_restores_session_witness :
  StreamlitApp.session_state
    (snd (StreamlitApp.sign_out
            (snd (StreamlitApp.sign_in Demo.auth (Some Demo.client)
                    "ann@example.org" "correct horse" Demo.fresh))))
  = ∅.
Proof.
  apply (proj2 (sign_in_then_sign_out_restores_session Demo.auth (Some Demo.client)
                  Demo.client "ann@example.org" "correct horse" Demo.fresh
                  {| StreamlitApp.user := "ann@example.org" |} 1%nat
                  eq_refl eq_refl eq_refl)).
Defined.

Lemma ragged_rows_lack_a_symbol : ¬ Forall App.has_symbol Demo.ragged_rows.
Proof.
  intros H. apply Forall_app in H as [_ H].
  apply Forall_cons in H as [[v Hv] _]. discriminate.
Qed.

Lemma row_without_symbol_raises_key_error_witness :
  ∃ s',
    App.load_data Demo.ragged_market elements_order
      (App.init_clients Demo.supabase_and_databento) false Demo.start
    = (Raised (KeyError "symbol"), s')
    ∧ App.calls s' = [App.FetchTrades; App.FetchJournals]
    ∧ App.market_data (App.vars s') = ∅.
Proof.
  apply (row_without_symbol_raises_key_error Demo.ragged_market elements_order
           (App.init_clients Demo.supabase_and_databento) Demo.start
           {| App.sb_url := Some "https://demo.supabase.co";
              App.sb_key := Some "anon-key" |}
           {| App.db_api_key := Some "db-demo" |} Demo.ragged_rows 1%nat);
    try reflexivity.
  exact ragged_rows_lack_a_symbol.
Defined.

Lemma sample_market_data_cases_witness :
  fst (App.load_data Demo.market_with_csv elements_order
         (App.init_clients Demo.no_credentials) true Demo.start)
  = Returned (replicate 100 {[ "symbol" := "MES" ]},
              replicate 100 {[ "entry" := "sample" ]},
              {[ "MES" := "csv with timestamps" ]}).
Proof.
  apply (proj2 (proj2 (proj2
           (sample_market_data_cases Demo.market_with_csv elements_order
              (App.init_clients Demo.no_credentials) Demo.start)))
           "csv" 2%nat "csv with timestamps");
    reflexivity.
Defined.

Lemma market_data_of_a_stateless_vendor_witness :
  App.market_data
    (App.vars (snd (App.load_data Demo.vendor_market elements_order
                      (App.init_clients Demo.supabase_and_databento) false
                      Demo.start))) !! "MES"
  = Some "candles of MES".
Proof.
  apply (proj1 (market_data_of_a_stateless_vendor Demo.vendor_market elements_order
                  (App.init_clients Demo.supabase_and_databento)
                  {| App.db_api_key := Some "db-demo" |} Demo.vendor Demo.start
                  eq_refl (λ _ _ _ _, eq_refl) demo_rows_have_symbols)).
  split; [|reflexivity].
  vm_compute. apply list_elem_of_here.
Defined.


Lemma sample_box_calls_no_service_witness :
  App.calls (snd (App.main Demo.market elements_order Demo.supabase_and_databento
                    "Dashboard" (Some true) Demo.start)) = [].
Proof.
  apply (proj1 (sample_box_calls_no_service Demo.market elements_order
                  Demo.supabase_and_databento "Dashboard" (Some true) Demo.start
                  eq_refl)).
Defined.
